(** * tf2_gnn.utils.training_utils: configuration resolution and the
      early-stopping training loop

    A shallow embedding of [src/tf2_gnn/utils/training_utils.py].

    Conventions of the embedding.
    - Python [int] is [Z]; a Python [float] that the module only compares,
      stores or forwards (validation metrics, losses, throughputs, JSON
      numbers) is an exact rational [Q]: not-a-number values are outside the
      model.
    - A Python [dict] with string keys is a [gmap string _]; [dict.update] is
      [dict_update] below.
    - Exceptions are the [Raise] branch of [result].
    - The file system, the log sink and the calls into the model object are
      explicit state ([FileSystem], the [trace] of a [TrainState]).
    - The collaborators that live outside this module (the model's
      [run_one_epoch] and [compute_epoch_metrics], the task registries of
      [task_utils], the [json] parser) are Section variables. *)

From Stdlib Require Import Ascii String QArith.
From stdpp Require Import gmap strings list fin_maps.

Set Warnings "-register-all".
Local Open Scope string_scope.
Local Open Scope list_scope.
Local Open Scope Z_scope.

(** ** Exceptions *)

Inductive Error : Type :=
| UnknownTaskError (task_name : string)
| FileNotFoundError (path : string)
| JSONDecodeError (document : string)
| UnpicklingError (path : string)
| KeyError (key : string)
| AttributeError
| HyperparameterCoercionError (param_name param_value : string).

Inductive result (A : Type) : Type :=
| Ok (a : A)
| Raise (e : Error).
Arguments Ok {A} a.
Arguments Raise {A} e.

#[global] Instance result_ret : MRet result := λ A a, Ok a.
#[global] Instance result_bind : MBind result := λ A B f r,
  match r with
  | Ok a => f a
  | Raise e => Raise e
  end.

#[global] Instance result_fmap : FMap result := λ A B f r,
  match r with
  | Ok a => Ok (f a)
  | Raise e => Raise e
  end.

Definition raises {A} (r : result A) : Prop := ∃ e, r = Raise e.

(** ** [os.path] on POSIX path strings *)

Definition startswith_sep (s : string) : bool :=
  match s with
  | String c _ => bool_decide (c = "/"%char)
  | EmptyString => false
  end.

Fixpoint endswith_sep (s : string) : bool :=
  match s with
  | EmptyString => false
  | String c EmptyString => bool_decide (c = "/"%char)
  | String _ rest => endswith_sep rest
  end.

(** [posixpath.join(a, b)]: an absolute [b] replaces [a]; otherwise the two
    are concatenated, with a separator unless [a] is empty or ends in one. *)
Definition os_path_join (a b : string) : string :=
  if startswith_sep b then b
  else if bool_decide (a = "") || endswith_sep a then a +:+ b
  else a +:+ "/" +:+ b.

(** ** JSON-compatible hyperparameter values *)

Inductive JValue : Type :=
| JNull
| JBool (b : bool)
| JInt (n : Z)
| JFloat (q : Q)
| JStr (s : string)
| JList (l : list JValue)
| JObject (m : gmap string JValue).

(** [d.update(other)]: every key of [other] is assigned in [d]. *)
Definition dict_update {A} (d other : gmap string A) : gmap string A :=
  map_fold (λ k v acc, <[k:=v]> acc) d other.

(** [obj.get(key, {})] on a decoded JSON document; a document that is not an
    object has no [get]. *)
Definition json_get (key : string) (obj : JValue) : result JValue :=
  match obj with
  | JObject m => Ok (default (JObject ∅) (m !! key))
  | _ => Raise AttributeError
  end.

(** A value handed to a parameter annotated [Dict[str, Any]]. *)
Definition as_dict (v : JValue) : result (gmap string JValue) :=
  match v with
  | JObject m => Ok m
  | _ => Raise AttributeError
  end.

(** ** Classes and objects of the collaborators *)

Inductive DataFold : Type := TRAIN | VALIDATION | TEST.

(** A dataset class: its identity, [get_default_hyperparameters()] (a fresh
    mapping at every call) and the [num_edge_types] property of an instance
    built from given parameters. *)
Record DatasetClass : Type := {
  dataset_class_name : string;
  dataset_default_hyperparameters : gmap string JValue;
  dataset_num_edge_types : gmap string JValue → Z
}.

(** A model class: its identity and [get_default_hyperparameters(mp_style)]
    (a fresh mapping at every call). *)
Record ModelClass : Type := {
  model_class_name : string;
  model_default_hyperparameters : string → gmap string JValue
}.

(** [dataset_cls(dataset_params)] keeps the mapping as [_params];
    [load_data] records the folds it was asked for. *)
Record GraphDataset : Type := {
  dataset_class : DatasetClass;
  dataset_params : gmap string JValue;
  loaded_data : option (string * option (list DataFold))
}.

Definition num_edge_types (dataset : GraphDataset) : Z :=
  dataset_num_edge_types (dataset_class dataset) (dataset_params dataset).

(** [model_cls(model_params, num_edge_types=...)] keeps the mapping as
    [_params]; [W] is the type of the weights the model object carries. *)
Record GraphTaskModel (W : Type) : Type := {
  model_class : ModelClass;
  model_params : gmap string JValue;
  model_num_edge_types : Z;
  model_weights : W
}.
Arguments model_class {W} _.
Arguments model_params {W} _.
Arguments model_num_edge_types {W} _.
Arguments model_weights {W} _.

Definition set_weights {W} (model : GraphTaskModel W) (w : W) : GraphTaskModel W :=
  {| model_class := model_class model;
     model_params := model_params model;
     model_num_edge_types := model_num_edge_types model;
     model_weights := w |}.

(** ** Files *)

(** What [pickle] can hold here: the values of the [data_to_store] dict. *)
Inductive PickleValue : Type :=
| PModelClass (cls : ModelClass)
| PDatasetClass (cls : DatasetClass)
| PParams (params : gmap string JValue).

Inductive FileContent : Type :=
| TextFile (text : string)
| PickleFile (data : gmap string PickleValue).

(** [files] maps a path to what is stored there; [weight_files] maps a path
    stem to the weights [save_weights] wrote under it. *)
Record FileSystem (W : Type) : Type := {
  files : gmap string FileContent;
  weight_files : gmap string W
}.
Arguments files {W} _.
Arguments weight_files {W} _.

Definition os_path_exists {W} (fs : FileSystem W) (path : string) : bool :=
  bool_decide (is_Some (files fs !! path)).

(** ** Search (hyperdrive) overrides *)

Definition digit_of (c : ascii) : option Z :=
  let n := Z.of_nat (nat_of_ascii c) in
  if bool_decide (48 ≤ n ≤ 57) then Some (n - 48) else None.

Fixpoint parse_digits (s : string) (acc : Z) : option Z :=
  match s with
  | EmptyString => Some acc
  | String c rest =>
      match digit_of c with
      | Some d => parse_digits rest (10 * acc + d)
      | None => None
      end
  end.

(** Splits an optional leading sign off a numeric literal. *)
Definition split_sign (s : string) : Z * string :=
  match s with
  | String c rest =>
      if bool_decide (c = "-"%char) then (-1, rest)
      else if bool_decide (c = "+"%char) then (1, rest)
      else (1, s)
  | EmptyString => (1, s)
  end.

Fixpoint split_at_dot (s : string) : string * string :=
  match s with
  | EmptyString => (EmptyString, EmptyString)
  | String c rest =>
      if bool_decide (c = "."%char) then (EmptyString, rest)
      else let '(int_part, frac_part) := split_at_dot rest in
           (String c int_part, frac_part)
  end.

(** A signed decimal integer literal: an optional sign and at least one digit. *)
Definition parse_int (s : string) : option Z :=
  let '(sign, body) := split_sign s in
  if bool_decide (body = "") then None
  else n ← parse_digits body 0; Some (sign * n).

(** A signed decimal literal with an optional fractional part, read exactly. *)
Definition parse_float (s : string) : option Q :=
  let '(sign, body) := split_sign s in
  let '(int_part, frac_part) := split_at_dot body in
  if bool_decide (int_part +:+ frac_part = "") then None
  else n ← parse_digits (int_part +:+ frac_part) 0;
       Some (Qmake (sign * n) (Z.to_pos (10 ^ Z.of_nat (String.length frac_part)))).

(** Modelled from the spec: the coercion of one search override, which
    [azure_ml/utils.py] (not among the sources) implements. The type of the
    value currently in the mapping decides: a boolean takes ["true"] or
    ["false"], an int or a float takes a numeric string and keeps the prior
    type, anything else (and a key not yet present) keeps the string; a value
    that cannot be coerced to the prior type raises
    [HyperparameterCoercionError]. *)
Definition coerce_hyperdrive_value
    (prior : option JValue) (param_name param_value : string) : result JValue :=
  match prior with
  | Some (JBool _) =>
      if bool_decide (param_value = "true") then Ok (JBool true)
      else if bool_decide (param_value = "false") then Ok (JBool false)
      else Raise (HyperparameterCoercionError param_name param_value)
  | Some (JInt _) =>
      match parse_int param_value with
      | Some n => Ok (JInt n)
      | None => Raise (HyperparameterCoercionError param_name param_value)
      end
  | Some (JFloat _) =>
      match parse_float param_value with
      | Some q => Ok (JFloat q)
      | None => Raise (HyperparameterCoercionError param_name param_value)
      end
  | _ => Ok (JStr param_value)
  end.

(** Modelled from the spec: [override_model_params_with_hyperdrive_params] of
    [azure_ml/utils.py] (not among the sources): every search override is
    coerced against the value the mapping holds for its key and assigned. *)
Definition override_model_params_with_hyperdrive_params
    (model_params : gmap string JValue)
    (hyperdrive_hyperparameter_overrides : gmap string string)
    : result (gmap string JValue) :=
  map_fold
    (λ param_name param_value acc,
       params ← acc;
       v ← coerce_hyperdrive_value (params !! param_name) param_name param_value;
       mret (<[param_name := v]> params))
    (Ok model_params) hyperdrive_hyperparameter_overrides.

(** ** The training run as explicit state *)

(** The lines [train] hands to [log_fun]; numbers are kept as values instead
    of their formatted digits. *)
Inductive LogLine : Type :=
| LogInitialValidMetric (best_val_str : string)
| LogEpoch (epoch : Z)
| LogTrain (train_loss : Q) (train_metric_string : string) (train_speed : Q)
| LogValid (valid_loss : Q) (valid_metric_string : string) (valid_speed : Q)
| LogBestEpochSoFar (valid_metric best_valid_metric : Q)
| LogStopping (patience : Z)
| LogTrainingTook (best_valid_metric : Q)
| LogText (msg : string).

(** What a run does to the outside, in order. [EvRunOneEpoch] is one call of
    [run_one_epoch] together with the metric [compute_epoch_metrics] reduces
    its results to. *)
Inductive Event : Type :=
| EvRunOneEpoch (fold : DataFold) (training : bool) (metric : Q)
| EvLog (line : LogLine)
| EvSaveModel (save_file : string)
| EvAmlLog (name : string) (value : Q).

(** The objects and local variables of [train]: [epoch] is the loop variable
    ([None] while unbound), [stopped] is set by the [break]. *)
Record TrainState (W : Type) : Type := {
  st_model : GraphTaskModel W;
  st_fs : FileSystem W;
  trace : list Event;
  best_valid_metric : Q;
  best_valid_epoch : Z;
  epoch : option Z;
  stopped : bool
}.
Arguments st_model {W} _.
Arguments st_fs {W} _.
Arguments trace {W} _.
Arguments best_valid_metric {W} _.
Arguments best_valid_epoch {W} _.
Arguments epoch {W} _.
Arguments stopped {W} _.

(** The parsed command line, as [run_train_from_args] reads it. *)
Record Args : Type := {
  args_model : string;
  args_task : string;
  args_data_path : string;
  args_save_dir : string;
  args_model_param_override : option string;
  args_data_param_override : option string;
  args_max_epochs : Z;
  args_patience : Z;
  args_random_seed : Z;
  args_run_name : option string;
  args_load_saved_model : option string;
  args_quiet : bool;
  args_run_test : bool;
  args_azureml_logging : bool
}.

(** Python truthiness of an [Optional[str]]. *)
Definition truthy (s : option string) : bool :=
  match s with
  | None => false
  | Some s => negb (bool_decide (s = ""))
  end.

(** [valid_metric < best_valid_metric] *)
Definition Qlt_bool (x y : Q) : bool := negb (Qle_bool y x).

(** ** The module *)

Section Model.

(** The model object's weights and the raw results of a pass. *)
Context {W R : Type}.

(** [model.run_one_epoch(data, training, quiet)] on the data of a fold: the
    weights it leaves and [(loss, speed, results)]. *)
Variable run_one_epoch : W → DataFold → bool → W * (Q * Q * R).

(** [model.compute_epoch_metrics(results)]: [(metric, display string)]. *)
Variable compute_epoch_metrics : R → Q * string.

(** [json.loads] / [json.load]: [None] on a malformed document. *)
Variable json_loads : string → option JValue.

(** [task_utils.task_name_to_dataset_class] and [task_name_to_model_class]:
    the class and the task-specific default overrides registered for a task,
    [None] for a task that is not registered. *)
Variable task_name_to_dataset_class : string → option (DatasetClass * gmap string JValue).
Variable task_name_to_model_class : string → option (ModelClass * gmap string JValue).

(** The weights of a model object before any pass. *)
Variable initial_weights : W.

(** The directory of the module, [os.path.dirname(__file__)]. *)
Variable module_dir : string.

(** *** [make_run_id] *)

(** [now] is the reading [time.strftime("%Y-%m-%d_%H-%M-%S")] would give. *)
Definition make_run_id (model_name task_name : string) (run_name : option string)
    (now : string) : string :=
  match run_name with
  | Some run_name => run_name
  | None => model_name +:+ "_" +:+ task_name +:+ "__" +:+ now
  end.

(** *** [save_model] *)

Definition data_to_store (model : GraphTaskModel W) (dataset : GraphDataset)
    : gmap string PickleValue :=
  <["dataset_params" := PParams (dataset_params dataset)]>
    (<["dataset_class" := PDatasetClass (dataset_class dataset)]>
       (<["model_params" := PParams (model_params model)]>
          (<["model_class" := PModelClass (model_class model)]> ∅))).

(** [pickle.dump] to [save_file] and [model.save_weights(save_file)]. *)
Definition save_model (save_file : string) (model : GraphTaskModel W)
    (dataset : GraphDataset) (fs : FileSystem W) : FileSystem W :=
  {| files := <[save_file := PickleFile (data_to_store model dataset)]> (files fs);
     weight_files := <[save_file := model_weights model]> (weight_files fs) |}.

(** *** [get_dataset] *)

Definition get_dataset (task_name : string) (dataset_cls : option DatasetClass)
    (dataset_model_optimised_default_hyperparameters
     loaded_data_hyperparameters
     cli_data_hyperparameter_overrides : gmap string JValue) : result GraphDataset :=
  '(dataset_cls, dataset_params) ←
    match dataset_cls with
    | None =>
        match task_name_to_dataset_class task_name with
        | None => Raise (UnknownTaskError task_name)
        | Some (dataset_cls, dataset_default_hyperparameter_overrides) =>
            let dataset_params := dataset_default_hyperparameters dataset_cls in
            let dataset_params :=
              dict_update dataset_params dataset_default_hyperparameter_overrides in
            let dataset_params :=
              dict_update dataset_params dataset_model_optimised_default_hyperparameters in
            Ok (dataset_cls, dataset_params)
        end
    | Some dataset_cls => Ok (dataset_cls, loaded_data_hyperparameters)
    end;
  let dataset_params := dict_update dataset_params cli_data_hyperparameter_overrides in
  Ok {| dataset_class := dataset_cls;
        dataset_params := dataset_params;
        loaded_data := None |}.

(** *** [get_model] *)

Definition get_model (msg_passing_implementation task_name : string)
    (model_cls : option ModelClass) (dataset : GraphDataset)
    (dataset_model_optimised_default_hyperparameters
     loaded_model_hyperparameters
     cli_model_hyperparameter_overrides : gmap string JValue)
    (hyperdrive_hyperparameter_overrides : gmap string string)
    : result (GraphTaskModel W) :=
  '(model_cls, model_params) ←
    match model_cls with
    | None =>
        match task_name_to_model_class task_name with
        | None => Raise (UnknownTaskError task_name)
        | Some (model_cls, model_default_hyperparameter_overrides) =>
            let model_params :=
              model_default_hyperparameters model_cls msg_passing_implementation in
            let model_params :=
              <["gnn_message_calculation_class" := JStr msg_passing_implementation]>
                model_params in
            let model_params :=
              dict_update model_params model_default_hyperparameter_overrides in
            let model_params :=
              dict_update model_params dataset_model_optimised_default_hyperparameters in
            Ok (model_cls, model_params)
        end
    | Some model_cls => Ok (model_cls, loaded_model_hyperparameters)
    end;
  let model_params := dict_update model_params cli_model_hyperparameter_overrides in
  model_params ←
    override_model_params_with_hyperdrive_params
      model_params hyperdrive_hyperparameter_overrides;
  Ok {| model_class := model_cls;
        model_params := model_params;
        model_num_edge_types := num_edge_types dataset;
        model_weights := initial_weights |}.

(** *** [get_model_and_dataset] *)

Definition json_loads_or_raise (document : string) : result JValue :=
  match json_loads document with
  | Some v => Ok v
  | None => Raise (JSONDecodeError document)
  end.

(** [json.load(f)] on an opened file; what is not text is no JSON document. *)
Definition json_load (content : FileContent) : result JValue :=
  match content with
  | TextFile text => json_loads_or_raise text
  | PickleFile _ => Raise (JSONDecodeError "")
  end.

(** [json.loads(overrides or "{}")]: an absent or empty argument is the empty
    object. *)
Definition loads_cli_overrides (overrides : option string) : result JValue :=
  if truthy overrides then json_loads_or_raise (default "" overrides)
  else Ok (JObject ∅).

Definition task_model_default_hypers_file (task_name msg_passing_implementation : string)
    : string :=
  os_path_join (os_path_join module_dir "default_hypers")
    (task_name +:+ "_" +:+ msg_passing_implementation +:+ ".json").

(** Lines 100-114, the branch without a saved model: the tuned defaults are
    read from the file named after task and message passing style, if there
    is one. *)
Definition load_default_task_model_hypers (fs : FileSystem W)
    (task_name msg_passing_implementation : string) : result JValue :=
  let default_task_model_hypers := JObject ∅ in
  let file := task_model_default_hypers_file task_name msg_passing_implementation in
  if os_path_exists fs file then
    match files fs !! file with
    | Some content => json_load content
    | None => Raise (FileNotFoundError file)
    end
  else Ok default_task_model_hypers.

(** [data_to_load[key]] for a class and [data_to_load.get(key, {})] for a
    parameter mapping of an unpickled checkpoint record. *)
Definition pickled_model_class (data_to_load : gmap string PickleValue) : result ModelClass :=
  match data_to_load !! "model_class" with
  | Some (PModelClass cls) => Ok cls
  | Some _ => Raise AttributeError
  | None => Raise (KeyError "model_class")
  end.

Definition pickled_dataset_class (data_to_load : gmap string PickleValue)
    : result DatasetClass :=
  match data_to_load !! "dataset_class" with
  | Some (PDatasetClass cls) => Ok cls
  | Some _ => Raise AttributeError
  | None => Raise (KeyError "dataset_class")
  end.

Definition pickled_params (key : string) (data_to_load : gmap string PickleValue)
    : result (gmap string JValue) :=
  match data_to_load !! key with
  | Some (PParams params) => Ok params
  | Some _ => Raise AttributeError
  | None => Ok ∅
  end.

Definition load_data (data_path : string) (folds_to_load : option (list DataFold))
    (dataset : GraphDataset) : GraphDataset :=
  {| dataset_class := dataset_class dataset;
     dataset_params := dataset_params dataset;
     loaded_data := Some (data_path, folds_to_load) |}.

(** The lines written to standard output are left out. Values that do not
    have the annotated type [Dict[str, Any]] are rejected where the arguments
    of [get_dataset] and [get_model] are evaluated. *)
Definition get_model_and_dataset (fs : FileSystem W)
    (task_name msg_passing_implementation data_path : string)
    (trained_model_file : option string)
    (cli_data_hyperparameter_overrides cli_model_hyperparameter_overrides : option string)
    (hyperdrive_hyperparameter_overrides : gmap string string)
    (folds_to_load : option (list DataFold))
    : result (GraphDataset * GraphTaskModel W) :=
  '(data_to_load, model_class, dataset_class, default_task_model_hypers) ←
    (if truthy trained_model_file then
       let file := default "" trained_model_file in
       match files fs !! file with
       | None => Raise (FileNotFoundError file)
       | Some (TextFile _) => Raise (UnpicklingError file)
       | Some (PickleFile data_to_load) =>
           model_class ← pickled_model_class data_to_load;
           dataset_class ← pickled_dataset_class data_to_load;
           Ok (data_to_load, Some model_class, Some dataset_class, JObject ∅)
       end
     else
       default_task_model_hypers ←
         load_default_task_model_hypers fs task_name msg_passing_implementation;
       Ok (∅, None, None, default_task_model_hypers));
  task_params ← json_get "task_params" default_task_model_hypers ≫= as_dict;
  loaded_dataset_params ← pickled_params "dataset_params" data_to_load;
  cli_data ← loads_cli_overrides cli_data_hyperparameter_overrides ≫= as_dict;
  dataset ← get_dataset task_name dataset_class task_params loaded_dataset_params cli_data;
  tuned_model_params ← json_get "model_params" default_task_model_hypers ≫= as_dict;
  loaded_model_params ← pickled_params "model_params" data_to_load;
  cli_model ← loads_cli_overrides cli_model_hyperparameter_overrides ≫= as_dict;
  model ← get_model msg_passing_implementation task_name model_class dataset
             tuned_model_params loaded_model_params cli_model
             hyperdrive_hyperparameter_overrides;
  let dataset := load_data data_path folds_to_load dataset in
  Ok (dataset, model).

(** *** [train] *)

(** Assignments to the objects and local variables of [train]. *)
Definition emit (ev : Event) (st : TrainState W) : TrainState W :=
  {| st_model := st_model st; st_fs := st_fs st; trace := trace st ++ [ev];
     best_valid_metric := best_valid_metric st;
     best_valid_epoch := best_valid_epoch st;
     epoch := epoch st; stopped := stopped st |}.

Definition set_model_weights (w : W) (st : TrainState W) : TrainState W :=
  {| st_model := set_weights (st_model st) w; st_fs := st_fs st; trace := trace st;
     best_valid_metric := best_valid_metric st;
     best_valid_epoch := best_valid_epoch st;
     epoch := epoch st; stopped := stopped st |}.

Definition set_fs (fs : FileSystem W) (st : TrainState W) : TrainState W :=
  {| st_model := st_model st; st_fs := fs; trace := trace st;
     best_valid_metric := best_valid_metric st;
     best_valid_epoch := best_valid_epoch st;
     epoch := epoch st; stopped := stopped st |}.

Definition set_best (valid_metric : Q) (current_epoch : Z) (st : TrainState W)
    : TrainState W :=
  {| st_model := st_model st; st_fs := st_fs st; trace := trace st;
     best_valid_metric := valid_metric;
     best_valid_epoch := current_epoch;
     epoch := epoch st; stopped := stopped st |}.

Definition set_epoch (current_epoch : Z) (st : TrainState W) : TrainState W :=
  {| st_model := st_model st; st_fs := st_fs st; trace := trace st;
     best_valid_metric := best_valid_metric st;
     best_valid_epoch := best_valid_epoch st;
     epoch := Some current_epoch; stopped := stopped st |}.

Definition break (st : TrainState W) : TrainState W :=
  {| st_model := st_model st; st_fs := st_fs st; trace := trace st;
     best_valid_metric := best_valid_metric st;
     best_valid_epoch := best_valid_epoch st;
     epoch := epoch st; stopped := true |}.

Definition log_fun (line : LogLine) (st : TrainState W) : TrainState W :=
  emit (EvLog line) st.

Definition aml_run_log (name : string) (value : Q) (st : TrainState W) : TrainState W :=
  emit (EvAmlLog name value) st.

(** [model.run_one_epoch(data, training=..., quiet=quiet)] on the data of
    [fold], then [model.compute_epoch_metrics] on its results:
    [(loss, speed, metric, metric string)]. *)
Definition run_one_epoch_and_metrics (fold : DataFold) (training : bool)
    (st : TrainState W) : TrainState W * (Q * Q * Q * string) :=
  let '(w, (loss, speed, results)) :=
    run_one_epoch (model_weights (st_model st)) fold training in
  let '(metric, metric_string) := compute_epoch_metrics results in
  (emit (EvRunOneEpoch fold training metric) (set_model_weights w st),
   (loss, speed, metric, metric_string)).

(** [save_model(save_file, model, dataset)] inside [train]. *)
Definition train_save_model (save_file : string) (dataset : GraphDataset)
    (st : TrainState W) : TrainState W :=
  emit (EvSaveModel save_file)
    (set_fs (save_model save_file (st_model st) dataset (st_fs st)) st).

(** The body of the [for] loop, lines 172-209, for one value of [epoch]. *)
Definition epoch_body (dataset : GraphDataset) (save_file : string) (patience : Z)
    (aml_run : bool) (current_epoch : Z) (st : TrainState W) : TrainState W :=
  let st := set_epoch current_epoch st in
  let st := log_fun (LogEpoch current_epoch) st in
  let '(st, (train_loss, train_speed, train_metric, train_metric_string)) :=
    run_one_epoch_and_metrics TRAIN true st in
  let st := log_fun (LogTrain train_loss train_metric_string train_speed) st in
  let '(st, (valid_loss, valid_speed, valid_metric, valid_metric_string)) :=
    run_one_epoch_and_metrics VALIDATION false st in
  let st := log_fun (LogValid valid_loss valid_metric_string valid_speed) st in
  let st :=
    if aml_run then
      aml_run_log "valid_speed" valid_speed
        (aml_run_log "task_valid_metric" valid_metric
           (aml_run_log "train_speed" train_speed
              (aml_run_log "task_train_metric" train_metric st)))
    else st in
  if Qlt_bool valid_metric (best_valid_metric st) then
    let st := log_fun (LogBestEpochSoFar valid_metric (best_valid_metric st)) st in
    let st := train_save_model save_file dataset st in
    set_best valid_metric current_epoch st
  else if current_epoch - best_valid_epoch st >=? patience then
    let st := log_fun (LogStopping patience) st in
    let st := log_fun (LogTrainingTook (best_valid_metric st)) st in
    break st
  else st.

(** [for epoch in epochs: ...], left at the [break]. *)
Fixpoint train_loop (dataset : GraphDataset) (save_file : string) (patience : Z)
    (aml_run : bool) (epochs : list Z) (st : TrainState W) : TrainState W :=
  match epochs with
  | [] => st
  | current_epoch :: epochs =>
      let st := epoch_body dataset save_file patience aml_run current_epoch st in
      if stopped st then st
      else train_loop dataset save_file patience aml_run epochs st
  end.

(** Lines 163-169: the baseline validation pass and the first checkpoint. *)
Definition train_init (model : GraphTaskModel W) (dataset : GraphDataset)
    (save_file : string) (fs : FileSystem W) : TrainState W :=
  let '(w, (_, _, initial_valid_results)) :=
    run_one_epoch (model_weights model) VALIDATION false in
  let '(best_valid_metric, best_val_str) :=
    compute_epoch_metrics initial_valid_results in
  let st :=
    {| st_model := set_weights model w; st_fs := fs;
       trace := [EvRunOneEpoch VALIDATION false best_valid_metric;
                 EvLog (LogInitialValidMetric best_val_str)];
       best_valid_metric := best_valid_metric;
       best_valid_epoch := 0;
       epoch := None; stopped := false |} in
  train_save_model save_file dataset st.

(** [train]: the returned path and the state the run leaves. [range(1,
    max_epochs + 1)] is [seqZ 1 max_epochs]. *)
Definition train (model : GraphTaskModel W) (dataset : GraphDataset) (run_id : string)
    (max_epochs patience : Z) (save_dir : string) (aml_run : bool)
    (fs : FileSystem W) : string * TrainState W :=
  let save_file := os_path_join save_dir (run_id +:+ "_best.pkl") in
  let st := train_init model dataset save_file fs in
  let st := train_loop dataset save_file patience aml_run (seqZ 1 max_epochs) st in
  (save_file, st).

(** *** [run_train_from_args] *)

(** What a run leaves behind: the run identifier, the path of the log file
    and the lines appended to it, the returned checkpoint path, the state
    after [train] and the test metric string if the test pass ran. *)
Record RunOutcome : Type := {
  out_run_id : string;
  out_log_file : string;
  out_log : list LogLine;
  out_trained_model_path : string;
  out_state : TrainState W;
  out_test_metric_string : option string
}.

Definition logged_lines (events : list Event) : list LogLine :=
  omap (λ ev, match ev with EvLog line => Some line | _ => None end) events.

(** [model.load_weights(path)] *)
Definition load_weights (fs : FileSystem W) (path : string) (model : GraphTaskModel W)
    : result (GraphTaskModel W) :=
  match weight_files fs !! path with
  | Some w => Ok (set_weights model w)
  | None => Raise (FileNotFoundError path)
  end.

(** The seeding calls, [model.build] and the AzureML context are left to the
    collaborators; the log lines that print the parameter mappings are
    [LogText] lines. *)
Definition run_train_from_args (args : Args)
    (hyperdrive_hyperparameter_overrides : gmap string string)
    (now : string) (fs : FileSystem W) : result RunOutcome :=
  '(dataset, model) ←
    get_model_and_dataset fs (args_task args) (args_model args) (args_data_path args)
      (args_load_saved_model args)
      (args_data_param_override args) (args_model_param_override args)
      hyperdrive_hyperparameter_overrides (Some [TRAIN; VALIDATION]);
  let run_id := make_run_id (args_model args) (args_task args) None now in
  let log_file := os_path_join (args_save_dir args) (run_id +:+ ".log") in
  let head_lines :=
    [LogText "Setting random seed"; LogText "Dataset parameters";
     LogText "Model parameters"] in
  model ←
    (if truthy (args_load_saved_model args)
     then load_weights fs (default "" (args_load_saved_model args)) model
     else Ok model);
  let '(trained_model_path, st) :=
    train model dataset run_id (args_max_epochs args) (args_patience args)
      (args_save_dir args) (args_azureml_logging args) fs in
  if args_run_test args then
    let dataset := load_data (args_data_path args) (Some [TEST]) dataset in
    restored ← load_weights (st_fs st) trained_model_path (st_model st);
    let '(_, (_, _, test_results)) :=
      run_one_epoch (model_weights restored) TEST false in
    let '(test_metric, test_metric_string) := compute_epoch_metrics test_results in
    Ok {| out_run_id := run_id; out_log_file := log_file;
          out_log := head_lines ++ logged_lines (trace st)
                     ++ [LogText "== Running on test dataset";
                         LogText "Loading data"; LogText "Restoring best model state";
                         LogText test_metric_string];
          out_trained_model_path := trained_model_path;
          out_state := st;
          out_test_metric_string := Some test_metric_string |}
  else
    Ok {| out_run_id := run_id; out_log_file := log_file;
          out_log := head_lines ++ logged_lines (trace st);
          out_trained_model_path := trained_model_path;
          out_state := st;
          out_test_metric_string := None |}.

End Model.

(** ** What a run shows: projections of the trace *)

(** The metrics of the validation passes, in the order they ran. *)
Definition valid_metrics (events : list Event) : list Q :=
  omap (λ ev, match ev with
              | EvRunOneEpoch VALIDATION false metric => Some metric
              | _ => None
              end) events.

(** The epochs the loop entered. *)
Definition epochs_run (events : list Event) : list Z :=
  omap (λ ev, match ev with EvLog (LogEpoch e) => Some e | _ => None end) events.

(** The passes over the data: fold and training flag. *)
Definition passes (events : list Event) : list (DataFold * bool) :=
  omap (λ ev, match ev with
              | EvRunOneEpoch fold training _ => Some (fold, training)
              | _ => None
              end) events.

(** The checkpoint writes. *)
Definition checkpoint_writes (events : list Event) : list string :=
  omap (λ ev, match ev with EvSaveModel save_file => Some save_file | _ => None end) events.

(** The epochs entered and the checkpoints written, in order. *)
Definition epochs_and_writes (events : list Event) : list (Z + string) :=
  omap (λ ev, match ev with
              | EvLog (LogEpoch e) => Some (inl e)
              | EvSaveModel save_file => Some (inr save_file)
              | _ => None
              end) events.

(** What was sent to the AzureML run: name and value. *)
Definition aml_logs (events : list Event) : list (string * Q) :=
  omap (λ ev, match ev with EvAmlLog name value => Some (name, value) | _ => None end)
    events.

(** The names under which one epoch reports to AzureML, in order. *)
Definition aml_names_per_epoch : list string :=
  ["task_train_metric"; "train_speed"; "task_valid_metric"; "valid_speed"].

(** The values reported as [task_valid_metric]. *)
Definition aml_valid_metrics (events : list Event) : list Q :=
  omap (λ entry : string * Q,
          if bool_decide (entry.1 = "task_valid_metric") then Some entry.2 else None)
    (aml_logs events).

(** The files of [fs'] are those of [fs] except under [save_file]. *)
Definition same_files_but {W} (save_file : string) (fs fs' : FileSystem W) : Prop :=
  ∀ path, path ≠ save_file →
    files fs' !! path = files fs !! path
    ∧ weight_files fs' !! path = weight_files fs !! path.

(** ** [log_line] *)

Definition newline : string := String "010"%char EmptyString.

(** [log_line(log_file, msg)]: the message and a newline are appended to the
    log file, which is created if it is not there, and the message is
    printed; the result is the file system and the printed line. A file
    that holds a pickle still unpickles to the same record after the append
    ([pickle.load] stops at the end of the first object). *)
Definition log_line {W} (log_file msg : string) (fs : FileSystem W)
    : FileSystem W * string :=
  let content :=
    match files fs !! log_file with
    | Some (TextFile text) => TextFile (text +:+ msg +:+ newline)
    | Some (PickleFile data) => PickleFile data
    | None => TextFile (msg +:+ newline)
    end in
  ({| files := <[log_file := content]> (files fs); weight_files := weight_files fs |},
   msg).

(** The text of a file, if it is a text file. *)
Definition read_text {W} (fs : FileSystem W) (path : string) : option string :=
  match files fs !! path with
  | Some (TextFile text) => Some text
  | _ => None
  end.

(** ** The validation metrics of a model, epoch by epoch *)

Section Sequences.

Context {W R : Type}.
Variable run_one_epoch : W → DataFold → bool → W * (Q * Q * R).
Variable compute_epoch_metrics : R → Q * string.

(** The metric of a pass started with weights [w]. *)
Definition pass_metric (w : W) (fold : DataFold) (training : bool) : Q :=
  fst (compute_epoch_metrics (snd (snd (run_one_epoch w fold training)))).

Definition after_train_pass (w : W) : W := fst (run_one_epoch w TRAIN true).

Definition after_valid_pass (w : W) : W := fst (run_one_epoch w VALIDATION false).

Definition valid_pass_metric (w : W) : Q := pass_metric w VALIDATION false.

(** The weights once the baseline pass and [k] epochs are complete, from the
    weights [w0] the model enters [train] with. *)
Fixpoint weights_after (w0 : W) (k : nat) : W :=
  match k with
  | O => after_valid_pass w0
  | S k => after_valid_pass (after_train_pass (weights_after w0 k))
  end.

(** The validation metric of epoch [k]; epoch 0 is the baseline pass. *)
Definition valid_metric_at (w0 : W) (k : nat) : Q :=
  match k with
  | O => valid_pass_metric w0
  | S k => valid_pass_metric (after_train_pass (weights_after w0 k))
  end.

(** The validation metric the epoch entered in state [st] will measure. *)
Definition epoch_valid_metric (st : TrainState W) : Q :=
  valid_pass_metric (after_train_pass (model_weights (st_model st))).

End Sequences.

(** ** Early stopping, in the words of the specification *)

(** The metric of epoch [e] is strictly below the best before it, that is,
    below the metric of every earlier epoch (the baseline is epoch 0). *)
Definition improves (m : nat → Q) (e : nat) : Prop :=
  ∀ i, (i < e)%nat → (m e < m i)%Q.

(** [b] is the best epoch when epoch [e] starts: the last epoch before [e]
    whose metric improved. *)
Definition best_epoch_before (m : nat → Q) (e b : nat) : Prop :=
  (b < e)%nat ∧ improves m b ∧ ∀ j, (b < j < e)%nat → ¬ improves m j.

(** At epoch [e] the metric does not improve and [e - b >= patience]. *)
Definition patience_exhausted (m : nat → Q) (patience : Z) (e : nat) : Prop :=
  ¬ improves m e ∧
  ∃ b, best_epoch_before m e b ∧ patience ≤ Z.of_nat e - Z.of_nat b.

(** [e] is the first epoch of the run at which patience is exhausted. *)
Definition first_patience_exhausted (m : nat → Q) (patience : Z) (e : nat) : Prop :=
  (1 ≤ e)%nat ∧ patience_exhausted m patience e ∧
  ∀ e', (1 ≤ e' < e)%nat → ¬ patience_exhausted m patience e'.

(** ** Invariants of the loop *)

Section Invariants.

Context {W R : Type}.
Variable run_one_epoch : W → DataFold → bool → W * (Q * Q * R).
Variable compute_epoch_metrics : R → Q * string.

(** The loop invariant once [k] epochs are complete, with best epoch [b],
    for a run that entered [train] with weights [w0] and writes its
    checkpoints to [save_file]. *)
Record loop_inv (save_file : string) (w0 : W) (k b : nat) (st : TrainState W)
    : Prop := {
  inv_weights : model_weights (st_model st) = weights_after run_one_epoch w0 k;
  inv_best_epoch : best_valid_epoch st = Z.of_nat b;
  inv_best_metric :
    best_valid_metric st = valid_metric_at run_one_epoch compute_epoch_metrics w0 b;
  inv_best_le : (b ≤ k)%nat;
  inv_improves : improves (valid_metric_at run_one_epoch compute_epoch_metrics w0) b;
  inv_minimum :
    ∀ i, (i ≤ k)%nat →
         (valid_metric_at run_one_epoch compute_epoch_metrics w0 b
          <= valid_metric_at run_one_epoch compute_epoch_metrics w0 i)%Q;
  inv_valid_metrics :
    valid_metrics (trace st) =
    valid_metric_at run_one_epoch compute_epoch_metrics w0 <$> seq 0 (S k);
  inv_epochs_run : epochs_run (trace st) = Z.of_nat <$> seq 1 k;
  inv_checkpoint :
    weight_files (st_fs st) !! save_file = Some (weights_after run_one_epoch w0 b)
}.

(** What holds of every state of the loop besides the tracking of the best
    metric: the class and parameters of the model are those it entered
    with, the checkpoint record is in place, and the passes alternate. *)
Record shape_inv (model0 : GraphTaskModel W) (dataset : GraphDataset)
    (save_file : string) (st : TrainState W) : Prop := {
  shape_class : model_class (st_model st) = model_class model0;
  shape_params : model_params (st_model st) = model_params model0;
  shape_files :
    files (st_fs st) !! save_file = Some (PickleFile (data_to_store model0 dataset));
  shape_weights : is_Some (weight_files (st_fs st) !! save_file);
  shape_passes :
    passes (trace st) =
    (VALIDATION, false)
      :: (epochs_run (trace st) ≫= λ _, [(TRAIN, true); (VALIDATION, false)]);
  shape_writes : Forall (eq save_file) (checkpoint_writes (trace st))
}.

End Invariants.

(** ** Sample collaborators *)

(** A model whose weights are the number of training passes it has seen and
    whose validation metric after [w] passes is the [w]-th entry of
    [metrics]. *)
Definition sample_run_one_epoch (metrics : list Q) (w : nat) (fold : DataFold)
    (training : bool) : nat * (Q * Q * Q) :=
  if training then (S w, (0, 0, 0)%Q) else (w, (0, 0, nth w metrics 0)%Q).

Definition sample_compute_epoch_metrics (results : Q) : Q * string := (results, "").

Definition sample_metrics : list Q := [1; 9 # 10; 95 # 100; 95 # 100; 95 # 100]%Q.

Definition sample_tie_metrics : list Q := [1; 1]%Q.

Definition sample_dataset_class : DatasetClass :=
  {| dataset_class_name := "PPIDataset";
     dataset_default_hyperparameters :=
       <["max_nodes_per_batch" := JInt 10000]>
         (<["add_self_loop_edges" := JBool true]>
            (<["tie_fwd_bkwd_edges" := JBool false]>
               (<["num_fwd_edge_types" := JInt 3]> ∅)));
     dataset_num_edge_types := λ _, 3 |}.

Definition sample_model_class : ModelClass :=
  {| model_class_name := "NodeMulticlassTask";
     model_default_hyperparameters := λ _,
       <["learning_rate" := JFloat (1 # 1000)]>
         (<["gnn_hidden_dim" := JInt 16]>
            (<["use_intermediate_gnn_results" := JBool true]> ∅)) |}.

Definition sample_task_name_to_dataset_class (task_name : string)
    : option (DatasetClass * gmap string JValue) :=
  if bool_decide (task_name = "PPI")
  then Some (sample_dataset_class, <["tie_fwd_bkwd_edges" := JBool true]> ∅)
  else None.

Definition sample_task_name_to_model_class (task_name : string)
    : option (ModelClass * gmap string JValue) :=
  if bool_decide (task_name = "PPI")
  then Some (sample_model_class, <["gnn_hidden_dim" := JInt 320]> ∅)
  else None.

(** The document [{"max_nodes_per_batch": 500}]. *)
Definition sample_override_document : string :=
  "{" +:+ String "034"%char "max_nodes_per_batch" +:+ String "034"%char ": 500}".

(** A decoder that knows three documents. *)
Definition sample_json_loads (document : string) : option JValue :=
  if bool_decide (document = "{}") then Some (JObject ∅)
  else if bool_decide (document = "[1]") then Some (JList [JInt 1])
  else if bool_decide (document = sample_override_document)
  then Some (JObject (<["max_nodes_per_batch" := JInt 500]> ∅))
  else None.

Definition sample_dataset : GraphDataset :=
  {| dataset_class := sample_dataset_class;
     dataset_params := dataset_default_hyperparameters sample_dataset_class;
     loaded_data := Some ("data", Some [TRAIN; VALIDATION]) |}.

Definition sample_model : GraphTaskModel nat :=
  {| model_class := sample_model_class;
     model_params := model_default_hyperparameters sample_model_class "GGNN";
     model_num_edge_types := 3;
     model_weights := 0%nat |}.

Definition empty_fs : FileSystem nat := {| files := ∅; weight_files := ∅ |}.

(** A file system in which a checkpoint of the sample model was saved. *)
Definition sample_checkpoint_fs : FileSystem nat :=
  save_model "trained_model/run_best.pkl" sample_model sample_dataset empty_fs.

Definition sample_tuned_task_params : gmap string JValue :=
  <["max_nodes_per_batch" := JInt 5000]> (<["add_self_loop_edges" := JBool false]> ∅).

Definition sample_cli_data_params : gmap string JValue :=
  <["max_nodes_per_batch" := JInt 500]> ∅.

Definition sample_hyperdrive_overrides : gmap string string :=
  <["gnn_hidden_dim" := "64"]> ∅.

Definition sample_args : Args :=
  {| args_model := "GGNN"; args_task := "PPI"; args_data_path := "data";
     args_save_dir := "trained_model";
     args_model_param_override := None; args_data_param_override := None;
     args_max_epochs := 10000; args_patience := 3; args_random_seed := 0;
     args_run_name := Some "my_run";
     args_load_saved_model := None;
     args_quiet := false; args_run_test := true; args_azureml_logging := false |}.

(** * Properties *)

(** ** Dictionaries *)

Lemma dict_update_lookup {A} (d other : gmap string A) (k : string) :
  dict_update d other !! k =
  match other !! k with
  | Some v => Some v
  | None => d !! k
  end.
Proof.
  unfold dict_update.
  induction other as [|i x other Hi Hfirst IH] using map_first_key_ind.
  - by rewrite map_fold_empty, lookup_empty.
  - rewrite map_fold_insert_first_key by done.
    rewrite !lookup_insert. case_decide; simplify_eq; auto.
Qed.

Lemma dict_update_union {A} (d other : gmap string A) :
  dict_update d other = other ∪ d.
Proof.
  apply map_eq. intros k. rewrite dict_update_lookup, lookup_union.
  destruct (other !! k), (d !! k); done.
Qed.

Lemma dict_update_empty {A} (d : gmap string A) : dict_update d ∅ = d.
Proof. unfold dict_update. by rewrite map_fold_empty. Qed.

(** ** Validation metrics are compared as rationals *)

Lemma Qlt_bool_true (x y : Q) : Qlt_bool x y = true ↔ (x < y)%Q.
Proof.
  unfold Qlt_bool. rewrite negb_true_iff.
  destruct (Qle_bool y x) eqn:E.
  - apply Qle_bool_iff in E. split; [done|]. intros H.
    exfalso. by apply (Qlt_not_le x y).
  - split; [|done]. intros _. apply Qnot_le_lt. intros H.
    apply Qle_bool_iff in H. congruence.
Qed.

Lemma Qlt_bool_false (x y : Q) : Qlt_bool x y = false ↔ (y <= x)%Q.
Proof.
  unfold Qlt_bool. rewrite negb_false_iff. apply Qle_bool_iff.
Qed.

(** ** One epoch of the loop *)

Section Loop.

Context {W R : Type}.
Variable run_one_epoch : W → DataFold → bool → W * (Q * Q * R).
Variable compute_epoch_metrics : R → Q * string.

Local Abbreviation body := (epoch_body run_one_epoch compute_epoch_metrics).
Local Abbreviation loop := (train_loop run_one_epoch compute_epoch_metrics).
Local Abbreviation init := (train_init run_one_epoch compute_epoch_metrics).
Local Abbreviation run := (train run_one_epoch compute_epoch_metrics).
Local Abbreviation train_pass := (after_train_pass run_one_epoch).
Local Abbreviation valid_pass := (after_valid_pass run_one_epoch).
Local Abbreviation metric_of := (valid_pass_metric run_one_epoch compute_epoch_metrics).
Local Abbreviation weights_at := (weights_after run_one_epoch).
Local Abbreviation metric_at := (valid_metric_at run_one_epoch compute_epoch_metrics).
Local Abbreviation next_metric := (epoch_valid_metric run_one_epoch compute_epoch_metrics).
Local Abbreviation inv := (loop_inv run_one_epoch compute_epoch_metrics).

Ltac state_simpl :=
  cbn [st_model st_fs trace best_valid_metric best_valid_epoch epoch stopped
       emit set_model_weights set_fs set_best set_epoch break log_fun aml_run_log
       train_save_model set_weights model_weights model_class model_params
       model_num_edge_types fst snd].

Ltac trace_simpl :=
  unfold valid_metrics, epochs_run, passes, checkpoint_writes;
  rewrite <- ?app_assoc, ?omap_app; cbn [omap list_omap app];
  rewrite ?app_nil_r.

Lemma run_one_epoch_and_metrics_eq fold training (st : TrainState W) :
  run_one_epoch_and_metrics run_one_epoch compute_epoch_metrics fold training st =
  let out := run_one_epoch (model_weights (st_model st)) fold training in
  let metric := pass_metric run_one_epoch compute_epoch_metrics
                  (model_weights (st_model st)) fold training in
  (emit (EvRunOneEpoch fold training metric) (set_model_weights (fst out) st),
   (fst (fst (snd out)), snd (fst (snd out)), metric,
    snd (compute_epoch_metrics (snd (snd out))))).
Proof.
  unfold run_one_epoch_and_metrics, pass_metric.
  destruct (run_one_epoch _ fold training) as [w [[loss speed] results]].
  cbn [fst snd]. by destruct (compute_epoch_metrics results).
Qed.

(** What one iteration changes, by the branch it takes. *)
Lemma epoch_body_spec dataset save_file patience aml_run e (st : TrainState W) :
  let v := next_metric st in
  let st' := body dataset save_file patience aml_run e st in
  model_weights (st_model st') = valid_pass (train_pass (model_weights (st_model st)))
  ∧ model_class (st_model st') = model_class (st_model st)
  ∧ model_params (st_model st') = model_params (st_model st)
  ∧ epoch st' = Some e
  ∧ valid_metrics (trace st') = valid_metrics (trace st) ++ [v]
  ∧ epochs_run (trace st') = epochs_run (trace st) ++ [e]
  ∧ passes (trace st') = passes (trace st) ++ [(TRAIN, true); (VALIDATION, false)]
  ∧ (if Qlt_bool v (best_valid_metric st)
     then best_valid_metric st' = v
          ∧ best_valid_epoch st' = e
          ∧ stopped st' = stopped st
          ∧ st_fs st' = save_model save_file (st_model st') dataset (st_fs st)
          ∧ checkpoint_writes (trace st') = checkpoint_writes (trace st) ++ [save_file]
     else best_valid_metric st' = best_valid_metric st
          ∧ best_valid_epoch st' = best_valid_epoch st
          ∧ st_fs st' = st_fs st
          ∧ checkpoint_writes (trace st') = checkpoint_writes (trace st)
          ∧ stopped st' = if e - best_valid_epoch st >=? patience then true
                          else stopped st).
Proof.
  intros v st'. subst v st'.
  unfold epoch_valid_metric, valid_pass_metric, after_train_pass, after_valid_pass,
    epoch_body.
  rewrite run_one_epoch_and_metrics_eq. cbv beta iota zeta.
  rewrite run_one_epoch_and_metrics_eq. cbv beta iota zeta.
  state_simpl.
  set (w1 := fst (run_one_epoch (model_weights (st_model st)) TRAIN true)).
  set (v := pass_metric run_one_epoch compute_epoch_metrics w1 VALIDATION false).
  destruct aml_run; state_simpl.
  all: destruct (Qlt_bool v (best_valid_metric st)) eqn:Hlt;
    [|destruct (e - best_valid_epoch st >=? patience) eqn:Hge]; state_simpl.
  all: trace_simpl; repeat split; reflexivity.
Qed.

Lemma train_loop_app dataset save_file patience aml_run l1 l2 (st : TrainState W) :
  stopped st = false →
  loop dataset save_file patience aml_run (l1 ++ l2) st =
  let st1 := loop dataset save_file patience aml_run l1 st in
  if stopped st1 then st1 else loop dataset save_file patience aml_run l2 st1.
Proof.
  revert st. induction l1 as [|e l1 IH]; intros st Hst; cbn [app train_loop].
  - cbv zeta. by rewrite Hst.
  - cbv zeta.
    destruct (stopped (body dataset save_file patience aml_run e st)) eqn:Hs.
    + by rewrite Hs.
    + by rewrite IH.
Qed.

Lemma seqZ_of_nat_seq (max_epochs : Z) :
  seqZ 1 max_epochs = Z.of_nat <$> seq 1 (Z.to_nat max_epochs).
Proof.
  unfold seqZ. rewrite <- fmap_S_seq, <- list_fmap_compose.
  apply list_fmap_ext. intros _ i _. cbn. lia.
Qed.

(** *** The run from weights [w0] *)

Section Run.

Variable dataset : GraphDataset.
Variable save_file : string.
Variable patience : Z.
Variable aml_run : bool.
Variable w0 : W.

Local Abbreviation m := (metric_at w0).

Lemma improves_next k b :
  (b ≤ k)%nat → (∀ i, (i ≤ k)%nat → (m b <= m i)%Q) →
  improves m (S k) ↔ (m (S k) < m b)%Q.
Proof.
  intros Hb Hmin. split.
  - intros H. apply H. lia.
  - intros H i Hi. eapply Qlt_le_trans; [exact H|]. apply Hmin. lia.
Qed.

Lemma best_epoch_before_next k b :
  (b ≤ k)%nat → improves m b → (∀ i, (i ≤ k)%nat → (m b <= m i)%Q) →
  ∀ b', best_epoch_before m (S k) b' ↔ b' = b.
Proof.
  intros Hb Himp Hmin b'. split.
  - intros (Hlt & Himp' & Hlast).
    destruct (lt_eq_lt_dec b' b) as [[Hc| ->]|Hc]; [|done|].
    + destruct (Hlast b); [lia|done].
    + exfalso. apply (Qlt_not_le (m b') (m b)); [by apply Himp'|].
      apply Hmin. lia.
  - intros ->. split; [lia|]. split; [done|].
    intros j Hj Hjimp. apply (Qlt_not_le (m j) (m b)); [apply Hjimp; lia|].
    apply Hmin. lia.
Qed.

(** Under the invariant, the code's [break] condition is the exhaustion of
    patience in the words of the specification. *)
Lemma patience_exhausted_next k b :
  (b ≤ k)%nat → improves m b → (∀ i, (i ≤ k)%nat → (m b <= m i)%Q) →
  patience_exhausted m patience (S k) ↔
  Qlt_bool (m (S k)) (m b) = false ∧ (Z.of_nat (S k) - Z.of_nat b >=? patience) = true.
Proof.
  intros Hb Himp Hmin. unfold patience_exhausted.
  rewrite improves_next by done. rewrite Qlt_bool_false, Z.geb_le. split.
  - intros [Hn (b' & Hb' & Hp)].
    apply (best_epoch_before_next k b Hb Himp Hmin) in Hb' as ->.
    split; [|done]. by apply Qnot_lt_le.
  - intros [Hle Hp]. split; [by apply Qle_not_lt|].
    exists b. split; [|done]. by apply (best_epoch_before_next k b).
Qed.

Lemma loop_inv_step k b (st : TrainState W) :
  inv save_file w0 k b st →
  let st' := body dataset save_file patience aml_run (Z.of_nat (S k)) st in
  if Qlt_bool (m (S k)) (m b)
  then inv save_file w0 (S k) (S k) st' ∧ stopped st' = stopped st
  else inv save_file w0 (S k) b st'
       ∧ stopped st' = if Z.of_nat (S k) - Z.of_nat b >=? patience then true
                       else stopped st.
Proof.
  intros [Hw Hbe Hbm Hle Himp Hmin Hvm Her Hck] st'.
  pose proof (epoch_body_spec dataset save_file patience aml_run (Z.of_nat (S k)) st)
    as Hspec.
  cbv zeta in Hspec. fold st' in Hspec.
  assert (Hv : next_metric st = m (S k)).
  { unfold epoch_valid_metric. by rewrite Hw. }
  rewrite Hv, Hbm, Hbe in Hspec.
  destruct Hspec as (Hw' & _ & _ & _ & Hvm' & Her' & _ & Hbranch).
  assert (Hweights : model_weights (st_model st') = weights_at w0 (S k)).
  { rewrite Hw', Hw. reflexivity. }
  assert (Hmetrics : valid_metrics (trace st') = m <$> seq 0 (S (S k))).
  { rewrite Hvm', Hvm. rewrite (seq_S (S k)), fmap_app. reflexivity. }
  assert (Hepochs : epochs_run (trace st') = Z.of_nat <$> seq 1 (S k)).
  { rewrite Her', Her. rewrite (seq_S k), fmap_app. reflexivity. }
  destruct (Qlt_bool (m (S k)) (m b)) eqn:Hlt.
  - destruct Hbranch as (Hbm' & Hbe' & Hst & Hfs & _).
    apply Qlt_bool_true in Hlt.
    split; [|done].
    split; [exact Hweights|exact Hbe'|exact Hbm'|lia| | |exact Hmetrics|exact Hepochs|].
    + by apply improves_next with b.
    + intros i Hi. destruct (decide (i = S k)) as [->|Hne]; [apply Qle_refl|].
      apply Qle_trans with (m b); [by apply Qlt_le_weak|]. apply Hmin. lia.
    + rewrite Hfs. cbn [save_model weight_files].
      by rewrite lookup_insert_eq, Hweights.
  - destruct Hbranch as (Hbm' & Hbe' & Hfs & _ & Hst).
    apply Qlt_bool_false in Hlt.
    split; [|done].
    split; [exact Hweights|exact Hbe'|by rewrite Hbm'|lia|exact Himp|
            |exact Hmetrics|exact Hepochs|by rewrite Hfs].
    intros i Hi. destruct (decide (i = S k)) as [->|Hne]; [done|].
    apply Hmin. lia.
Qed.

(** The loop over the epochs [k+1 .. k+n], entered with [k] epochs complete:
    it stops at the first epoch that exhausts patience, or runs them all. *)
Lemma train_loop_run n : ∀ k b (st : TrainState W),
  inv save_file w0 k b st → stopped st = false →
  let st' := loop dataset save_file patience aml_run (Z.of_nat <$> seq (S k) n) st in
  (∃ e b', (k < e ≤ k + n)%nat ∧ inv save_file w0 e b' st' ∧ stopped st' = true
      ∧ patience_exhausted m patience e
      ∧ ∀ e', (k < e' < e)%nat → ¬ patience_exhausted m patience e')
  ∨ (∃ b', inv save_file w0 (k + n) b' st' ∧ stopped st' = false
      ∧ ∀ e', (k < e' ≤ k + n)%nat → ¬ patience_exhausted m patience e').
Proof.
  induction n as [|n IH]; intros k b st Hinv Hst.
  - right. exists b. rewrite Nat.add_0_r. cbn. split; [done|]. split; [done|]. lia.
  - cbn [seq fmap list_fmap train_loop]. cbv zeta.
    pose proof (loop_inv_step k b st Hinv) as Hstep. cbv zeta in Hstep.
    pose proof (patience_exhausted_next k b (inv_best_le _ _ _ _ _ _ _ Hinv)
                  (inv_improves _ _ _ _ _ _ _ Hinv) (inv_minimum _ _ _ _ _ _ _ Hinv)) as Hex.
    set (st1 := body dataset save_file patience aml_run (Z.of_nat (S k)) st) in *.
    destruct (Qlt_bool (m (S k)) (m b)) eqn:Hlt.
    + destruct Hstep as [Hinv1 Hst1]. rewrite Hst in Hst1. rewrite Hst1.
      assert (Hno : ¬ patience_exhausted m patience (S k)).
      { rewrite Hex. by intros [? _]. }
      destruct (IH (S k) (S k) st1 Hinv1 Hst1) as
        [(e & b' & He & Hinv' & Hst' & Hpe & Hfirst)|(b' & Hinv' & Hst' & Hnone)].
      * left. exists e, b'. split; [lia|]. split; [done|]. split; [done|].
        split; [done|]. intros e' He'.
        destruct (decide (e' = S k)) as [->|Hne]; [done|]. apply Hfirst. lia.
      * right. exists b'. replace (k + S n)%nat with (S k + n)%nat by lia.
        split; [done|]. split; [done|]. intros e' He'.
        destruct (decide (e' = S k)) as [->|Hne]; [done|]. apply Hnone. lia.
    + destruct Hstep as [Hinv1 Hst1].
      destruct (Z.of_nat (S k) - Z.of_nat b >=? patience) eqn:Hge.
      * rewrite Hst1. left. exists (S k), b. split; [lia|]. split; [done|].
        split; [done|]. split; [by apply Hex|]. lia.
      * rewrite Hst in Hst1. rewrite Hst1.
        assert (Hno : ¬ patience_exhausted m patience (S k)).
        { rewrite Hex. by intros [_ ?]. }
        destruct (IH (S k) b st1 Hinv1 Hst1) as
          [(e & b' & He & Hinv' & Hst' & Hpe & Hfirst)|(b' & Hinv' & Hst' & Hnone)].
        -- left. exists e, b'. split; [lia|]. split; [done|]. split; [done|].
           split; [done|]. intros e' He'.
           destruct (decide (e' = S k)) as [->|Hne]; [done|]. apply Hfirst. lia.
        -- right. exists b'. replace (k + S n)%nat with (S k + n)%nat by lia.
           split; [done|]. split; [done|]. intros e' He'.
           destruct (decide (e' = S k)) as [->|Hne]; [done|]. apply Hnone. lia.
Qed.

(** The state [train] enters the loop with. *)
Lemma train_init_inv (model : GraphTaskModel W) (fs : FileSystem W) :
  model_weights model = w0 →
  inv save_file w0 0 0 (init model dataset save_file fs)
  ∧ stopped (init model dataset save_file fs) = false.
Proof.
  intros Hw. unfold train_init. rewrite Hw.
  assert (Hw0 : weights_at w0 0 = fst (run_one_epoch w0 VALIDATION false))
    by reflexivity.
  assert (Hm0 : m 0%nat = fst (compute_epoch_metrics
                            (snd (snd (run_one_epoch w0 VALIDATION false)))))
    by reflexivity.
  destruct (run_one_epoch w0 VALIDATION false) as [w [[loss speed] results]].
  cbn [fst snd] in Hw0, Hm0.
  destruct (compute_epoch_metrics results) as [metric str].
  cbn [fst snd] in Hm0.
  split; [|reflexivity].
  split; state_simpl.
  - symmetry. exact Hw0.
  - reflexivity.
  - symmetry. exact Hm0.
  - lia.
  - intros i Hi. lia.
  - intros i Hi. replace i with 0%nat by lia. apply Qle_refl.
  - change (m <$> seq 0 1) with [m 0%nat]. rewrite Hm0. reflexivity.
  - reflexivity.
  - cbn [save_model weight_files]. by rewrite lookup_insert_eq, Hw0.
Qed.

End Run.

(** *** The whole of [train] *)

(** [train] either leaves the loop at the first epoch of its budget that
    exhausts patience, or no epoch of the budget does and it runs them all;
    the invariant holds in the state it leaves. *)
Lemma train_outcome (model : GraphTaskModel W) dataset run_id max_epochs patience
    save_dir aml_run (fs : FileSystem W) :
  let w0 := model_weights model in
  let save_file := os_path_join save_dir (run_id +:+ "_best.pkl") in
  let st := snd (run model dataset run_id max_epochs patience save_dir aml_run fs) in
  let n := Z.to_nat max_epochs in
  (∃ e b, (e ≤ n)%nat ∧ inv save_file w0 e b st ∧ stopped st = true
      ∧ first_patience_exhausted (metric_at w0) patience e)
  ∨ (∃ b, inv save_file w0 n b st ∧ stopped st = false
      ∧ ∀ e, (1 ≤ e ≤ n)%nat → ¬ patience_exhausted (metric_at w0) patience e).
Proof.
  intros w0 save_file st n. subst st. unfold train. cbn [snd].
  rewrite seqZ_of_nat_seq. fold save_file n.
  destruct (train_init_inv dataset save_file w0 model fs eq_refl) as [Hinv Hst].
  destruct (train_loop_run dataset save_file patience aml_run w0 n 0 0 _ Hinv Hst)
    as [(e & b & He & Hinv' & Hst' & Hpe & Hfirst)|(b & Hinv' & Hst' & Hnone)].
  - left. exists e, b. split; [lia|]. split; [done|]. split; [done|].
    split; [lia|]. split; [done|]. intros e' He'. apply Hfirst. lia.
  - right. exists b. split; [done|]. split; [done|].
    intros e He. apply Hnone. lia.
Qed.

Lemma first_patience_exhausted_unique m patience e1 e2 :
  first_patience_exhausted m patience e1 →
  first_patience_exhausted m patience e2 → e1 = e2.
Proof.
  intros (H1 & Hp1 & Hf1) (H2 & Hp2 & Hf2).
  destruct (lt_eq_lt_dec e1 e2) as [[Hlt|Heq]|Hlt]; [|done|].
  - destruct (Hf2 e1); [lia|done].
  - destruct (Hf1 e2); [lia|done].
Qed.

Lemma of_nat_seq_inj (e1 e2 : nat) :
  Z.of_nat <$> seq 1 e1 = Z.of_nat <$> seq 1 e2 → e1 = e2.
Proof.
  intros H. apply (f_equal length) in H.
  by rewrite !length_fmap, !length_seq in H.
Qed.

(** The loop stops early exactly at the first epoch of the budget that
    exhausts patience. *)
Lemma train_stops_iff (model : GraphTaskModel W) dataset run_id max_epochs patience
    save_dir aml_run (fs : FileSystem W) (e : nat) :
  let st := snd (run model dataset run_id max_epochs patience save_dir aml_run fs) in
  stopped st = true ∧ epochs_run (trace st) = seqZ 1 (Z.of_nat e)
  ↔ Z.of_nat e ≤ max_epochs
    ∧ first_patience_exhausted (metric_at (model_weights model)) patience e.
Proof.
  intros st.
  pose proof (train_outcome model dataset run_id max_epochs patience save_dir
                aml_run fs) as Hout.
  cbv zeta in Hout. fold st in Hout.
  rewrite seqZ_of_nat_seq, Nat2Z.id.
  destruct Hout as [(e0 & b & He0 & Hinv & Hst & Hfirst)|(b & Hinv & Hst & Hnone)].
  - rewrite (inv_epochs_run _ _ _ _ _ _ _ Hinv). split.
    + intros [_ Heq]. apply of_nat_seq_inj in Heq. subst e0.
      split; [|done]. destruct Hfirst as [H1 _]. lia.
    + intros [_ Hfirst']. split; [done|].
      by rewrite (first_patience_exhausted_unique _ _ _ _ Hfirst' Hfirst).
  - split.
    + intros [Hst' _]. congruence.
    + intros [He (H1 & Hpe & _)]. destruct (Hnone e); [lia|done].
Qed.

(** Without an epoch that exhausts patience the loop runs its whole budget. *)
Lemma train_runs_budget_iff (model : GraphTaskModel W) dataset run_id max_epochs
    patience save_dir aml_run (fs : FileSystem W) :
  let st := snd (run model dataset run_id max_epochs patience save_dir aml_run fs) in
  stopped st = false ∧ epochs_run (trace st) = seqZ 1 max_epochs
  ↔ ∀ e, (1 ≤ e)%nat → Z.of_nat e ≤ max_epochs →
         ¬ patience_exhausted (metric_at (model_weights model)) patience e.
Proof.
  intros st.
  pose proof (train_outcome model dataset run_id max_epochs patience save_dir
                aml_run fs) as Hout.
  cbv zeta in Hout. fold st in Hout.
  destruct Hout as [(e0 & b & He0 & Hinv & Hst & Hfirst)|(b & Hinv & Hst & Hnone)].
  - split.
    + intros [Hst' _]. congruence.
    + intros Hnone. destruct Hfirst as (H1 & Hpe & _).
      destruct (Hnone e0); [done|lia|done].
  - split.
    + intros _ e H1 He. apply Hnone. lia.
    + intros _. split; [done|].
      by rewrite (inv_epochs_run _ _ _ _ _ _ _ Hinv), seqZ_of_nat_seq.
Qed.

(** *** The shape of the trace and the checkpoint file *)

Lemma data_to_store_set_weights (model : GraphTaskModel W) dataset w :
  data_to_store (set_weights model w) dataset = data_to_store model dataset.
Proof. reflexivity. Qed.

Lemma shape_inv_step model0 dataset save_file patience aml_run e (st : TrainState W) :
  shape_inv model0 dataset save_file st →
  shape_inv model0 dataset save_file (body dataset save_file patience aml_run e st).
Proof.
  intros [Hc Hp Hf Hw Hps Hcw].
  pose proof (epoch_body_spec dataset save_file patience aml_run e st) as Hspec.
  cbv zeta in Hspec.
  set (st' := body dataset save_file patience aml_run e st) in *.
  destruct Hspec as (_ & Hc' & Hp' & _ & _ & Her' & Hps' & Hbranch).
  assert (Hpasses : passes (trace st') =
            (VALIDATION, false)
              :: (epochs_run (trace st') ≫= λ _, [(TRAIN, true); (VALIDATION, false)])).
  { rewrite Hps', Her', Hps, bind_app. reflexivity. }
  destruct (Qlt_bool (next_metric st) (best_valid_metric st)).
  - destruct Hbranch as (_ & _ & _ & Hfs & Hcw').
    split; [congruence|congruence| | |exact Hpasses|].
    + rewrite Hfs. cbn [save_model files]. rewrite lookup_insert_eq.
      do 2 f_equal. unfold data_to_store. by rewrite Hc', Hp', Hc, Hp.
    + rewrite Hfs. cbn [save_model weight_files]. by rewrite lookup_insert_eq.
    + rewrite Hcw'. apply Forall_app. split; [done|]. by apply Forall_singleton.
  - destruct Hbranch as (_ & _ & Hfs & Hcw' & _).
    split; [congruence|congruence|by rewrite Hfs|by rewrite Hfs|exact Hpasses|].
    by rewrite Hcw'.
Qed.

Lemma shape_inv_loop model0 dataset save_file patience aml_run epochs :
  ∀ st : TrainState W,
  shape_inv model0 dataset save_file st →
  shape_inv model0 dataset save_file (loop dataset save_file patience aml_run epochs st).
Proof.
  induction epochs as [|e epochs IH]; intros st Hinv; cbn [train_loop]; [done|].
  cbv zeta. destruct (stopped _); [|apply IH]; by apply shape_inv_step.
Qed.

Lemma shape_inv_init (model : GraphTaskModel W) dataset save_file (fs : FileSystem W) :
  shape_inv model dataset save_file (init model dataset save_file fs).
Proof.
  unfold train_init.
  destruct (run_one_epoch (model_weights model) VALIDATION false)
    as [w [[loss speed] results]].
  destruct (compute_epoch_metrics results) as [metric str].
  split; state_simpl; try reflexivity.
  - cbn [save_model files]. by rewrite lookup_insert_eq.
  - cbn [save_model weight_files]. by rewrite lookup_insert_eq.
  - cbn. by apply Forall_singleton.
Qed.

(** Every iteration extends the trace. *)
Lemma epoch_body_trace dataset save_file patience aml_run e (st : TrainState W) :
  ∃ events, trace (body dataset save_file patience aml_run e st) = trace st ++ events.
Proof.
  unfold epoch_body.
  rewrite run_one_epoch_and_metrics_eq. cbv beta iota zeta.
  rewrite run_one_epoch_and_metrics_eq. cbv beta iota zeta.
  state_simpl.
  destruct aml_run; state_simpl.
  all: destruct (Qlt_bool _ (best_valid_metric st));
    [|destruct (e - best_valid_epoch st >=? patience)]; state_simpl.
  all: rewrite <- ?app_assoc; eexists; reflexivity.
Qed.

Lemma train_loop_trace dataset save_file patience aml_run epochs :
  ∀ st : TrainState W,
  ∃ events, trace (loop dataset save_file patience aml_run epochs st) = trace st ++ events.
Proof.
  induction epochs as [|e epochs IH]; intros st; cbn [train_loop].
  - exists []. by rewrite app_nil_r.
  - cbv zeta.
    destruct (epoch_body_trace dataset save_file patience aml_run e st) as [ev1 H1].
    destruct (stopped _); [by exists ev1|].
    destruct (IH (body dataset save_file patience aml_run e st)) as [ev2 H2].
    exists (ev1 ++ ev2). by rewrite H2, H1, app_assoc.
Qed.

(** The loop never raises the best metric. *)
Lemma train_loop_best_le dataset save_file patience aml_run epochs :
  ∀ st : TrainState W,
  (best_valid_metric (loop dataset save_file patience aml_run epochs st)
   <= best_valid_metric st)%Q.
Proof.
  induction epochs as [|e epochs IH]; intros st; cbn [train_loop];
    [apply Qle_refl|].
  cbv zeta.
  pose proof (epoch_body_spec dataset save_file patience aml_run e st) as Hspec.
  cbv zeta in Hspec.
  set (st' := body dataset save_file patience aml_run e st) in *.
  assert (Hstep : (best_valid_metric st' <= best_valid_metric st)%Q).
  { destruct Hspec as (_ & _ & _ & _ & _ & _ & _ & Hbranch).
    destruct (Qlt_bool (next_metric st) (best_valid_metric st)) eqn:Hlt.
    - destruct Hbranch as (-> & _). apply Qlt_le_weak. by apply Qlt_bool_true.
    - destruct Hbranch as (-> & _). apply Qle_refl. }
  destruct (stopped st'); [done|].
  eapply Qle_trans; [apply IH|done].
Qed.

Lemma startswith_sep_app (a b : string) :
  startswith_sep b = false → startswith_sep (a +:+ b) = startswith_sep a.
Proof. intros Hb. by destruct a. Qed.

(** *** Claims about [train] *)

(** C3. Improvement is strict: in an epoch whose validation metric equals
    the current best, the best metric and the best epoch stay as they are,
    the file system is untouched and no checkpoint is written, and the
    patience test is the one that decides whether the loop goes on: the
    loop stops exactly when [epoch - best_valid_epoch >= patience]. *)
Theorem tie_is_not_an_improvement dataset save_file patience aml_run e
    (st : TrainState W) :
  (next_metric st == best_valid_metric st)%Q →
  let st' := body dataset save_file patience aml_run e st in
  best_valid_metric st' = best_valid_metric st
  ∧ best_valid_epoch st' = best_valid_epoch st
  ∧ st_fs st' = st_fs st
  ∧ checkpoint_writes (trace st') = checkpoint_writes (trace st)
  ∧ stopped st' = (if e - best_valid_epoch st >=? patience then true else stopped st).
Proof.
  intros Htie st'.
  pose proof (epoch_body_spec dataset save_file patience aml_run e st) as Hspec.
  cbv zeta in Hspec. fold st' in Hspec.
  destruct Hspec as (_ & _ & _ & _ & _ & _ & _ & Hbranch).
  assert (Hlt : Qlt_bool (next_metric st) (best_valid_metric st) = false).
  { apply Qlt_bool_false. rewrite Htie. apply Qle_refl. }
  rewrite Hlt in Hbranch. tauto.
Qed.

(** C4. [train] returns the join of [save_dir] and [{run_id}_best.pkl]
    (literally [{save_dir}/{run_id}_best.pkl] for a directory name that is
    not empty and has no trailing separator and a run identifier that does
    not start with one). Before the loop it runs exactly one validation
    pass, takes its metric as the best metric with best epoch 0 and writes
    a checkpoint; every later validation pass follows a training pass. When
    [train] returns, however the loop ended, the checkpoint record of the
    model and dataset is stored under the returned path together with the
    weights of the best epoch. *)
Theorem train_persists_baseline_checkpoint (model : GraphTaskModel W) dataset
    run_id max_epochs patience save_dir aml_run (fs : FileSystem W) :
  let w0 := model_weights model in
  let baseline := metric_of w0 in
  let save_file := os_path_join save_dir (run_id +:+ "_best.pkl") in
  let st0 := init model dataset save_file fs in
  let result := run model dataset run_id max_epochs patience save_dir aml_run fs in
  let st := snd result in
  fst result = save_file
  ∧ st = loop dataset save_file patience aml_run (seqZ 1 max_epochs) st0
  ∧ (∃ best_val_str,
       trace st0 = [EvRunOneEpoch VALIDATION false baseline;
                    EvLog (LogInitialValidMetric best_val_str);
                    EvSaveModel save_file])
  ∧ best_valid_metric st0 = baseline
  ∧ best_valid_epoch st0 = 0
  ∧ weight_files (st_fs st0) !! save_file = Some (valid_pass w0)
  ∧ (∃ events, trace st = trace st0 ++ events)
  ∧ passes (trace st) =
      (VALIDATION, false)
        :: (epochs_run (trace st) ≫= λ _, [(TRAIN, true); (VALIDATION, false)])
  ∧ files (st_fs st) !! save_file = Some (PickleFile (data_to_store model dataset))
  ∧ (∃ b, best_valid_epoch st = Z.of_nat b
          ∧ weight_files (st_fs st) !! save_file = Some (weights_at w0 b))
  ∧ (save_dir ≠ "" → endswith_sep save_dir = false → startswith_sep run_id = false →
     save_file = save_dir +:+ "/" +:+ run_id +:+ "_best.pkl").
Proof.
  intros w0 baseline save_file st0 result st.
  split; [reflexivity|]. split; [reflexivity|].
  assert (Hinit : (∃ best_val_str,
       trace st0 = [EvRunOneEpoch VALIDATION false baseline;
                    EvLog (LogInitialValidMetric best_val_str);
                    EvSaveModel save_file])
     ∧ best_valid_metric st0 = baseline
     ∧ best_valid_epoch st0 = 0
     ∧ weight_files (st_fs st0) !! save_file = Some (valid_pass w0)).
  { subst st0 baseline. unfold train_init, valid_pass_metric, pass_metric,
      after_valid_pass. fold w0.
    destruct (run_one_epoch w0 VALIDATION false) as [w [[loss speed] results]].
    cbn [fst snd].
    destruct (compute_epoch_metrics results) as [metric str].
    state_simpl. split; [exists str; reflexivity|].
    split; [reflexivity|]. split; [reflexivity|].
    cbn [save_model weight_files]. by rewrite lookup_insert_eq. }
  destruct Hinit as (Htr & Hbm & Hbe & Hwf).
  split; [exact Htr|]. split; [exact Hbm|]. split; [exact Hbe|].
  split; [exact Hwf|].
  split; [apply train_loop_trace|].
  pose proof (shape_inv_loop model dataset save_file patience aml_run
                (seqZ 1 max_epochs) st0 (shape_inv_init model dataset save_file fs))
    as Hshape.
  split; [exact (shape_passes _ _ _ _ Hshape)|].
  split; [exact (shape_files _ _ _ _ Hshape)|].
  split.
  - pose proof (train_outcome model dataset run_id max_epochs patience save_dir
                  aml_run fs) as Hout.
    cbv zeta in Hout. fold w0 save_file result st in Hout.
    destruct Hout as [(e & b & _ & Hinv & _)|(b & Hinv & _)]; exists b;
      (split; [exact (inv_best_epoch _ _ _ _ _ _ _ Hinv)
              |exact (inv_checkpoint _ _ _ _ _ _ _ Hinv)]).
  - intros Hne Hend Hstart. subst save_file. unfold os_path_join.
    rewrite startswith_sep_app by reflexivity. rewrite Hstart.
    rewrite bool_decide_eq_false_2 by done. by rewrite Hend.
Qed.

(** A run passes through the final states of the runs with a smaller
    budget: after [k] epochs it is in the state the run with budget [k]
    leaves, and goes on from there unless that run has stopped. *)
Lemma train_prefix (model : GraphTaskModel W) dataset run_id max_epochs patience
    save_dir aml_run (fs : FileSystem W) (k : Z) :
  0 ≤ k ≤ max_epochs →
  let save_file := os_path_join save_dir (run_id +:+ "_best.pkl") in
  let st_k := snd (run model dataset run_id k patience save_dir aml_run fs) in
  snd (run model dataset run_id max_epochs patience save_dir aml_run fs) =
  if stopped st_k then st_k
  else loop dataset save_file patience aml_run (seqZ (1 + k) (max_epochs - k)) st_k.
Proof.
  intros Hk save_file st_k. subst st_k. unfold train. cbn [snd]. fold save_file.
  replace max_epochs with (k + (max_epochs - k)) at 1 by lia.
  rewrite seqZ_app by lia.
  rewrite train_loop_app; [reflexivity|].
  by destruct (train_init_inv dataset save_file (model_weights model) model fs eq_refl).
Qed.

(** C10. The loop invariant of [train]. In the state [train] leaves, for
    every epoch budget (so after the baseline pass, budget 0, and after every
    completed epoch, through which every longer run passes), the best metric
    is the minimum of the validation metrics observed so far, baseline
    included: it is one of them and none is smaller; the best epoch is the
    first position at which that minimum occurs; and a longer budget never
    gives a larger best metric. *)
Theorem best_metric_is_running_minimum (model : GraphTaskModel W) dataset run_id
    max_epochs patience save_dir aml_run (fs : FileSystem W) :
  let st := snd (run model dataset run_id max_epochs patience save_dir aml_run fs) in
  let observed := valid_metrics (trace st) in
  length observed = S (length (epochs_run (trace st)))
  ∧ (∃ b : nat,
       best_valid_epoch st = Z.of_nat b
       ∧ observed !! b = Some (best_valid_metric st)
       ∧ (∀ i v, (i < b)%nat → observed !! i = Some v → (best_valid_metric st < v)%Q))
  ∧ (∀ v, v ∈ observed → (best_valid_metric st <= v)%Q)
  ∧ (∀ longer, 0 ≤ max_epochs ≤ longer →
       let st_longer :=
         snd (run model dataset run_id longer patience save_dir aml_run fs) in
       st_longer =
         (if stopped st then st
          else loop dataset (os_path_join save_dir (run_id +:+ "_best.pkl"))
                 patience aml_run (seqZ (1 + max_epochs) (longer - max_epochs)) st)
       ∧ (best_valid_metric st_longer <= best_valid_metric st)%Q).
Proof.
  intros st observed.
  set (w0 := model_weights model).
  set (save_file := os_path_join save_dir (run_id +:+ "_best.pkl")).
  assert (Hinv : ∃ k b, inv save_file w0 k b st).
  { pose proof (train_outcome model dataset run_id max_epochs patience save_dir
                  aml_run fs) as Hout.
    cbv zeta in Hout. fold w0 save_file st in Hout.
    destruct Hout as [(e & b & _ & Hinv & _)|(b & Hinv & _)]; eauto. }
  destruct Hinv as (k & b & [Hw Hbe Hbm Hle Himp Hmin Hvm Her Hck]).
  subst observed. rewrite Hvm, Her, Hbm.
  split; [by rewrite !length_fmap, !length_seq|].
  split; [|split].
  - exists b. split; [done|]. split.
    + rewrite list_lookup_fmap, lookup_seq_lt by lia. reflexivity.
    + intros i v Hi Hlook.
      rewrite list_lookup_fmap, lookup_seq_lt in Hlook by lia.
      cbn in Hlook. injection Hlook as <-. by apply Himp.
  - intros v Hv. apply list_elem_of_fmap in Hv as (i & -> & Hi).
    apply elem_of_seq in Hi. apply Hmin. lia.
  - intros longer Hlonger st_longer. rewrite <- Hbm.
    pose proof (train_prefix model dataset run_id longer patience save_dir aml_run
                  fs max_epochs Hlonger) as Hprefix.
    cbv zeta in Hprefix. fold st st_longer save_file in Hprefix.
    split; [exact Hprefix|]. rewrite Hprefix.
    destruct (stopped st); [apply Qle_refl|apply train_loop_best_le].
Qed.

End Loop.

(** Every sequence of metrics is the sequence of validation metrics of a
    model: of the sample model built from it. *)
Lemma sample_weights_after (metrics : list Q) (k : nat) :
  weights_after (sample_run_one_epoch metrics) 0%nat k = k.
Proof. induction k as [|k IH]; [reflexivity|]. cbn [weights_after]. by rewrite IH. Qed.

Lemma sample_valid_metric_at (metrics : list Q) (k : nat) :
  valid_metric_at (sample_run_one_epoch metrics) sample_compute_epoch_metrics 0%nat k
  = nth k metrics 0%Q.
Proof.
  destruct k as [|k]; [reflexivity|].
  cbn [valid_metric_at]. by rewrite sample_weights_after.
Qed.

(** C2. For every model, that is for every sequence [m] of validation
    metrics, and every budget and patience: [train] leaves the loop by its
    [break] after epoch [e] exactly when [e] is the first epoch of the
    budget at which the metric does not improve and [e - b >= patience],
    [b] being the last epoch whose metric improved (the baseline is epoch
    0); when no epoch of the budget is such, the loop runs the whole budget.
    In particular with patience 3 and the metrics 1.0 (baseline), 0.9, 0.95,
    0.95, 0.95 the loop stops after epoch 4, and the checkpoint in place is
    the one written in epoch 1, with metric 0.9. *)
Theorem train_stops_at_first_patience_exhaustion :
  (∀ (W R : Type) (run_one_epoch : W → DataFold → bool → W * (Q * Q * R))
     (compute_epoch_metrics : R → Q * string)
     (model : GraphTaskModel W) dataset run_id max_epochs patience save_dir aml_run
     (fs : FileSystem W),
     let m := valid_metric_at run_one_epoch compute_epoch_metrics (model_weights model) in
     let st := snd (train run_one_epoch compute_epoch_metrics model dataset run_id
                      max_epochs patience save_dir aml_run fs) in
     (∀ e : nat,
        stopped st = true ∧ epochs_run (trace st) = seqZ 1 (Z.of_nat e)
        ↔ Z.of_nat e ≤ max_epochs ∧ first_patience_exhausted m patience e)
     ∧ (stopped st = false ∧ epochs_run (trace st) = seqZ 1 max_epochs
        ↔ ∀ e, (1 ≤ e)%nat → Z.of_nat e ≤ max_epochs → ¬ patience_exhausted m patience e))
  ∧ (∀ (metrics : list Q) (k : nat),
       valid_metric_at (sample_run_one_epoch metrics) sample_compute_epoch_metrics
         0%nat k = nth k metrics 0%Q)
  ∧ (∀ max_epochs, 4 ≤ max_epochs →
     let result :=
       train (sample_run_one_epoch sample_metrics) sample_compute_epoch_metrics
         sample_model sample_dataset "run" max_epochs 3 "trained_model" false empty_fs in
     let st := snd result in
     valid_metric_at (sample_run_one_epoch sample_metrics) sample_compute_epoch_metrics
       (model_weights sample_model) <$> seq 0 5 = sample_metrics
     ∧ stopped st = true
     ∧ epochs_run (trace st) = [1; 2; 3; 4]
     ∧ best_valid_epoch st = 1
     ∧ best_valid_metric st = (9 # 10)%Q
     ∧ epochs_and_writes (trace st) =
         [inr (fst result); inl 1; inr (fst result); inl 2; inl 3; inl 4]
     ∧ weight_files (st_fs st) !! fst result = Some 1%nat).
Proof.
  split.
  - intros W R run_one_epoch compute_epoch_metrics model dataset run_id max_epochs
      patience save_dir aml_run fs m st.
    split.
    + intros e. apply train_stops_iff.
    + apply train_runs_budget_iff.
  - split; [apply sample_valid_metric_at|].
    intros max_epochs Hmax result st.
    assert (Hsame : result =
              train (sample_run_one_epoch sample_metrics) sample_compute_epoch_metrics
                sample_model sample_dataset "run" 4 3 "trained_model" false empty_fs).
    { subst result. unfold train. cbv zeta. f_equal.
      replace max_epochs with (4 + (max_epochs - 4)) by lia.
      rewrite seqZ_app by lia.
      rewrite train_loop_app by (vm_compute; reflexivity).
      cbv zeta.
      match goal with
      | |- (if stopped ?s then _ else _) = _ =>
          assert (Hs : stopped s = true) by (vm_compute; reflexivity)
      end.
      rewrite Hs. reflexivity. }
    subst st. rewrite Hsame. vm_compute. repeat split; reflexivity.
Qed.

Lemma train_stops_at_first_patience_exhaustion_witness :
  let result :=
    train (sample_run_one_epoch sample_metrics) sample_compute_epoch_metrics
      sample_model sample_dataset "run" 10000 3 "trained_model" false empty_fs in
  let st := snd result in
  4 ≤ 10000
  ∧ valid_metric_at (sample_run_one_epoch sample_metrics) sample_compute_epoch_metrics
      (model_weights sample_model) <$> seq 0 5 = sample_metrics
  ∧ stopped st = true
  ∧ epochs_run (trace st) = [1; 2; 3; 4]
  ∧ best_valid_epoch st = 1
  ∧ best_valid_metric st = (9 # 10)%Q
  ∧ epochs_and_writes (trace st) =
      [inr (fst result); inl 1; inr (fst result); inl 2; inl 3; inl 4]
  ∧ weight_files (st_fs st) !! fst result = Some 1%nat.
Proof.
  split; [lia|].
  apply (proj2 (proj2 train_stops_at_first_patience_exhaustion) 10000). lia.
Defined.

Lemma tie_is_not_an_improvement_witness :
  let run_one := sample_run_one_epoch sample_tie_metrics in
  let st := train_init run_one sample_compute_epoch_metrics sample_model sample_dataset
              "trained_model/run_best.pkl" empty_fs in
  let st' := epoch_body run_one sample_compute_epoch_metrics sample_dataset
               "trained_model/run_best.pkl" 3 false 1 st in
  (epoch_valid_metric run_one sample_compute_epoch_metrics st == best_valid_metric st)%Q
  ∧ best_valid_metric st' = best_valid_metric st
  ∧ best_valid_epoch st' = best_valid_epoch st
  ∧ st_fs st' = st_fs st
  ∧ checkpoint_writes (trace st') = checkpoint_writes (trace st)
  ∧ stopped st' = (if 1 - best_valid_epoch st >=? 3 then true else stopped st).
Proof.
  split; [vm_compute; reflexivity|].
  apply (tie_is_not_an_improvement (sample_run_one_epoch sample_tie_metrics)
           sample_compute_epoch_metrics).
  vm_compute. reflexivity.
Defined.

Lemma train_persists_baseline_checkpoint_witness :
  "trained_model" ≠ ""
  ∧ endswith_sep "trained_model" = false
  ∧ startswith_sep "run" = false
  ∧ os_path_join "trained_model" ("run" +:+ "_best.pkl")
    = "trained_model" +:+ "/" +:+ "run" +:+ "_best.pkl".
Proof.
  split; [discriminate|]. split; [reflexivity|]. split; [reflexivity|].
  pose proof (train_persists_baseline_checkpoint
                (sample_run_one_epoch sample_metrics) sample_compute_epoch_metrics
                sample_model sample_dataset "run" 10000 3 "trained_model" false
                empty_fs) as H.
  cbv zeta in H. destruct H as (_ & _ & _ & _ & _ & _ & _ & _ & _ & _ & H).
  apply H; [discriminate|reflexivity|reflexivity].
Defined.

(** ** Search overrides *)

(** Every search override is coerced against the value the mapping held for
    its key; the first that cannot be coerced makes the whole call raise. *)
Lemma override_model_params_with_hyperdrive_params_spec
    (params : gmap string JValue) (overrides : gmap string string) :
  match override_model_params_with_hyperdrive_params params overrides with
  | Ok params' =>
      ∀ k, match overrides !! k with
           | Some s => ∃ v, coerce_hyperdrive_value (params !! k) k s = Ok v
                            ∧ params' !! k = Some v
           | None => params' !! k = params !! k
           end
  | Raise _ =>
      ∃ k s, overrides !! k = Some s
             ∧ raises (coerce_hyperdrive_value (params !! k) k s)
  end.
Proof.
  unfold override_model_params_with_hyperdrive_params.
  induction overrides as [|i x overrides Hi Hfirst IH] using map_first_key_ind.
  - rewrite map_fold_empty. intros k. by rewrite lookup_empty.
  - rewrite map_fold_insert_first_key by done.
    destruct (map_fold _ _ overrides) as [params1|err]; cbn.
    + assert (Hsame : params1 !! i = params !! i).
      { specialize (IH i). by rewrite Hi in IH. }
      rewrite Hsame.
      destruct (coerce_hyperdrive_value (params !! i) i x) as [v|err] eqn:Hc; cbn.
      * intros k. rewrite !lookup_insert. case_decide as Hk.
        -- subst k. exists v. by rewrite Hc.
        -- apply IH.
      * exists i, x. rewrite lookup_insert_eq. split; [done|]. rewrite Hc. by exists err.
    + destruct IH as (k & s & Hk & Hr). exists k, s. split; [|done].
      rewrite lookup_insert_ne; [done|]. intros ->. congruence.
Qed.

Lemma override_model_params_with_hyperdrive_params_empty (params : gmap string JValue) :
  override_model_params_with_hyperdrive_params params ∅ = Ok params.
Proof. unfold override_model_params_with_hyperdrive_params. by rewrite map_fold_empty. Qed.

(** ** The configuration resolver *)

Section Resolver.

Context {W : Type}.
Variable json_loads : string → option JValue.
Variable task_name_to_dataset_class : string → option (DatasetClass * gmap string JValue).
Variable task_name_to_model_class : string → option (ModelClass * gmap string JValue).
Variable initial_weights : W.
Variable module_dir : string.

Local Abbreviation resolve_dataset := (get_dataset task_name_to_dataset_class).
Local Abbreviation resolve_model := (get_model task_name_to_model_class initial_weights).
Local Abbreviation resolve :=
  (get_model_and_dataset json_loads task_name_to_dataset_class task_name_to_model_class
     initial_weights module_dir).
Local Abbreviation cli_overrides := (loads_cli_overrides json_loads).
Local Abbreviation tuned_defaults := (load_default_task_model_hypers json_loads module_dir).

(** C1. With no class override, [get_dataset] resolves the parameters of
    the class registered for the task as the class defaults updated, in
    this order, by the task-specific default overrides, the tuned task and
    model defaults and the CLI overrides: for every key the value is the one
    of the last layer that has the key, and a key that none of the three
    override layers has keeps its class default. *)
Theorem get_dataset_layers (task_name : string) (dataset_cls : DatasetClass)
    (task_overrides tuned loaded cli : gmap string JValue) :
  task_name_to_dataset_class task_name = Some (dataset_cls, task_overrides) →
  ∃ dataset,
    resolve_dataset task_name None tuned loaded cli = Ok dataset
    ∧ dataset_class dataset = dataset_cls
    ∧ dataset_params dataset =
        dict_update
          (dict_update
             (dict_update (dataset_default_hyperparameters dataset_cls) task_overrides)
             tuned)
          cli
    ∧ (∀ k, dataset_params dataset !! k =
            match cli !! k with
            | Some v => Some v
            | None =>
                match tuned !! k with
                | Some v => Some v
                | None =>
                    match task_overrides !! k with
                    | Some v => Some v
                    | None => dataset_default_hyperparameters dataset_cls !! k
                    end
                end
            end)
    ∧ (∀ k, cli !! k = None → tuned !! k = None → task_overrides !! k = None →
            dataset_params dataset !! k =
            dataset_default_hyperparameters dataset_cls !! k).
Proof.
  intros Htask. unfold get_dataset. rewrite Htask. cbn.
  eexists. split; [reflexivity|]. cbn [dataset_class dataset_params].
  split; [reflexivity|]. split; [reflexivity|].
  assert (Hlookup : ∀ k,
    dict_update
      (dict_update
         (dict_update (dataset_default_hyperparameters dataset_cls) task_overrides)
         tuned) cli !! k =
    match cli !! k with
    | Some v => Some v
    | None =>
        match tuned !! k with
        | Some v => Some v
        | None =>
            match task_overrides !! k with
            | Some v => Some v
            | None => dataset_default_hyperparameters dataset_cls !! k
            end
        end
    end).
  { intros k. by rewrite !dict_update_lookup. }
  split; [exact Hlookup|].
  intros k Hcli Htuned Htask_overrides.
  by rewrite Hlookup, Hcli, Htuned, Htask_overrides.
Qed.

(** C9. [save_model] stores under [save_file] a record with exactly the
    four fields [model_class], [model_params], [dataset_class] and
    [dataset_params], holding the classes and the parameter mappings of the
    model and the dataset as they are, and saves the weights of the model
    under the same path; nothing else in the file system changes. *)
Theorem save_model_record (save_file : string) (model : GraphTaskModel W)
    (dataset : GraphDataset) (fs : FileSystem W) :
  let fs' := save_model save_file model dataset fs in
  (∃ data,
     files fs' !! save_file = Some (PickleFile data)
     ∧ dom data = {["model_class"; "model_params"; "dataset_class"; "dataset_params"]}
     ∧ data !! "model_class" = Some (PModelClass (model_class model))
     ∧ data !! "model_params" = Some (PParams (model_params model))
     ∧ data !! "dataset_class" = Some (PDatasetClass (dataset_class dataset))
     ∧ data !! "dataset_params" = Some (PParams (dataset_params dataset)))
  ∧ weight_files fs' !! save_file = Some (model_weights model)
  ∧ (∀ path, path ≠ save_file →
       files fs' !! path = files fs !! path
       ∧ weight_files fs' !! path = weight_files fs !! path).
Proof.
  intros fs'. subst fs'. unfold save_model. cbn [files weight_files].
  split; [|split].
  - exists (data_to_store model dataset). rewrite lookup_insert_eq.
    split; [reflexivity|]. unfold data_to_store. split.
    + rewrite !dom_insert_L, dom_empty_L. set_solver.
    + by repeat split.
  - by rewrite lookup_insert_eq.
  - intros path Hne. by rewrite !lookup_insert_ne.
Qed.

Lemma truthy_some (s : string) : s ≠ "" → truthy (Some s) = true.
Proof. intros Hs. cbn. by rewrite bool_decide_eq_false_2. Qed.

(** C6. With a saved-model file, [get_model_and_dataset] takes the classes
    and both parameter mappings from the checkpoint record: the dataset
    parameters are the loaded ones updated by the CLI overrides, and the
    model parameters are the loaded ones updated by the CLI overrides (and
    then by the search overrides, if any are given). Neither the task
    registries nor a tuned-defaults file enter the result. *)
Theorem saved_model_hyperparameters_are_the_base (fs : FileSystem W)
    (task_name msg_passing_implementation data_path file : string)
    (cli_data cli_model : option string) (hyperdrive : gmap string string)
    (folds_to_load : option (list DataFold))
    (data_to_load : gmap string PickleValue)
    (model_cls : ModelClass) (dataset_cls : DatasetClass)
    (loaded_dataset_params loaded_model_params cli_data_params cli_model_params
     resolved_model_params : gmap string JValue) :
  file ≠ "" →
  files fs !! file = Some (PickleFile data_to_load) →
  data_to_load !! "model_class" = Some (PModelClass model_cls) →
  data_to_load !! "dataset_class" = Some (PDatasetClass dataset_cls) →
  data_to_load !! "dataset_params" = Some (PParams loaded_dataset_params) →
  data_to_load !! "model_params" = Some (PParams loaded_model_params) →
  cli_overrides cli_data = Ok (JObject cli_data_params) →
  cli_overrides cli_model = Ok (JObject cli_model_params) →
  override_model_params_with_hyperdrive_params
    (dict_update loaded_model_params cli_model_params) hyperdrive
  = Ok resolved_model_params →
  ∃ dataset model,
    resolve fs task_name msg_passing_implementation data_path (Some file)
      cli_data cli_model hyperdrive folds_to_load = Ok (dataset, model)
    ∧ dataset_class dataset = dataset_cls
    ∧ dataset_params dataset = dict_update loaded_dataset_params cli_data_params
    ∧ (∀ k, dataset_params dataset !! k =
            match cli_data_params !! k with
            | Some v => Some v
            | None => loaded_dataset_params !! k
            end)
    ∧ model_class model = model_cls
    ∧ model_params model = resolved_model_params
    ∧ (hyperdrive = ∅ →
       model_params model = dict_update loaded_model_params cli_model_params
       ∧ ∀ k, model_params model !! k =
              match cli_model_params !! k with
              | Some v => Some v
              | None => loaded_model_params !! k
              end).
Proof.
  intros Hfile Hread Hmc Hdc Hdp Hmp Hcd Hcm Hhd.
  unfold get_model_and_dataset.
  rewrite truthy_some by done.
  change (default "" (Some file)) with file. rewrite Hread.
  unfold pickled_model_class, pickled_dataset_class. rewrite Hmc, Hdc.
  cbn [mbind result_bind].
  unfold pickled_params. rewrite Hdp, Hmp, Hcd, Hcm. cbn.
  rewrite Hhd. cbn.
  eexists _, _. split; [reflexivity|].
  cbn [load_data dataset_class dataset_params model_class model_params].
  split; [reflexivity|]. split; [reflexivity|].
  split; [intros k; apply dict_update_lookup|].
  split; [reflexivity|]. split; [reflexivity|].
  intros ->. rewrite override_model_params_with_hyperdrive_params_empty in Hhd.
  injection Hhd as <-. split; [reflexivity|].
  intros k. apply dict_update_lookup.
Qed.

(** C7. Without a saved-model file, a missing tuned-defaults file
    [{task}_{msg_passing_impl}.json] is no error: the tuned defaults are the
    empty object, both of its groups are empty mappings, and
    [get_model_and_dataset] resolves as it does with empty tuned layers.
    Reading the tuned defaults raises exactly when the file is there and
    does not hold a JSON document. *)
Theorem missing_tuned_defaults_are_not_an_error (fs : FileSystem W)
    (task_name msg_passing_implementation : string) :
  let file :=
    task_model_default_hypers_file module_dir task_name msg_passing_implementation in
  (files fs !! file = None →
     tuned_defaults fs task_name msg_passing_implementation = Ok (JObject ∅)
     ∧ json_get "task_params" (JObject ∅) ≫= as_dict = Ok ∅
     ∧ json_get "model_params" (JObject ∅) ≫= as_dict = Ok ∅
     ∧ ∀ data_path trained_model_file cli_data cli_model hyperdrive folds_to_load,
         truthy trained_model_file = false →
         resolve fs task_name msg_passing_implementation data_path trained_model_file
           cli_data cli_model hyperdrive folds_to_load =
         (cli_data ← cli_overrides cli_data ≫= as_dict;
          dataset ← resolve_dataset task_name None ∅ ∅ cli_data;
          cli_model ← cli_overrides cli_model ≫= as_dict;
          model ← resolve_model msg_passing_implementation task_name None dataset
                    ∅ ∅ cli_model hyperdrive;
          Ok (load_data data_path folds_to_load dataset, model)))
  ∧ (raises (tuned_defaults fs task_name msg_passing_implementation)
     ↔ ∃ content, files fs !! file = Some content
                  ∧ raises (json_load json_loads content)).
Proof.
  intros file. split.
  - intros Hnone.
    assert (Hload : tuned_defaults fs task_name msg_passing_implementation
                    = Ok (JObject ∅)).
    { unfold load_default_task_model_hypers, os_path_exists. fold file.
      rewrite Hnone. rewrite bool_decide_eq_false_2; [done|]. by intros [? ?]. }
    split; [exact Hload|]. split; [reflexivity|]. split; [reflexivity|].
    intros data_path trained_model_file cli_data cli_model hyperdrive folds_to_load
      Htruthy.
    unfold get_model_and_dataset. rewrite Htruthy, Hload. cbn.
    destruct (cli_overrides cli_data ≫= as_dict) as [cd|err]; [|reflexivity].
    cbn.
    destruct (resolve_dataset task_name None ∅ ∅ cd) as [dataset|err]; [|reflexivity].
    cbn.
    destruct (cli_overrides cli_model ≫= as_dict) as [cm|err]; [|reflexivity].
    cbn.
    by destruct (resolve_model msg_passing_implementation task_name None dataset
                   ∅ ∅ cm hyperdrive).
  - unfold load_default_task_model_hypers, os_path_exists. fold file.
    destruct (files fs !! file) as [content|] eqn:Hfile.
    + rewrite bool_decide_eq_true_2 by eauto. split.
      * intros Hr. by exists content.
      * by intros (content' & [= <-] & Hr).
    + rewrite bool_decide_eq_false_2 by (by intros [? ?]). split.
      * by intros [e He].
      * by intros (content & Hc & _).
Qed.

(** C8. In [get_model] the search overrides are applied after the CLI
    overrides, each coerced against the value the mapping then holds for
    its key. A prior int 5 and the string "7" give the int 7, a prior
    boolean true and "false" give false, and a prior float 0.1 and "abc"
    raise [HyperparameterCoercionError]; the type that decides is the one of
    the value left by the CLI overrides. *)
Theorem search_overrides_coerce_after_cli :
  (∀ msg_passing_implementation task_name model_cls dataset tuned loaded cli hyperdrive,
     resolve_model msg_passing_implementation task_name (Some model_cls) dataset
       tuned loaded cli hyperdrive =
     (model_params ←
        override_model_params_with_hyperdrive_params (dict_update loaded cli) hyperdrive;
      Ok {| model_class := model_cls; model_params := model_params;
            model_num_edge_types := num_edge_types dataset;
            model_weights := initial_weights |}))
  ∧ (∀ msg_passing_implementation task_name model_cls task_overrides dataset
       tuned loaded cli hyperdrive,
     task_name_to_model_class task_name = Some (model_cls, task_overrides) →
     resolve_model msg_passing_implementation task_name None dataset
       tuned loaded cli hyperdrive =
     (model_params ←
        override_model_params_with_hyperdrive_params
          (dict_update
             (dict_update
                (dict_update
                   (<["gnn_message_calculation_class" := JStr msg_passing_implementation]>
                      (model_default_hyperparameters model_cls
                         msg_passing_implementation))
                   task_overrides)
                tuned)
             cli)
          hyperdrive;
      Ok {| model_class := model_cls; model_params := model_params;
            model_num_edge_types := num_edge_types dataset;
            model_weights := initial_weights |}))
  ∧ (∀ (params : gmap string JValue) (overrides : gmap string string),
       match override_model_params_with_hyperdrive_params params overrides with
       | Ok params' =>
           ∀ k, match overrides !! k with
                | Some s => ∃ v, coerce_hyperdrive_value (params !! k) k s = Ok v
                                 ∧ params' !! k = Some v
                | None => params' !! k = params !! k
                end
       | Raise _ =>
           ∃ k s, overrides !! k = Some s
                  ∧ raises (coerce_hyperdrive_value (params !! k) k s)
       end)
  ∧ override_model_params_with_hyperdrive_params
      (<["num_layers" := JInt 5]> ∅) (<["num_layers" := "7"]> ∅)
    = Ok (<["num_layers" := JInt 7]> ∅)
  ∧ override_model_params_with_hyperdrive_params
      (<["use_bias" := JBool true]> ∅) (<["use_bias" := "false"]> ∅)
    = Ok (<["use_bias" := JBool false]> ∅)
  ∧ override_model_params_with_hyperdrive_params
      (<["learning_rate" := JFloat (1 # 10)]> ∅) (<["learning_rate" := "abc"]> ∅)
    = Raise (HyperparameterCoercionError "learning_rate" "abc")
  ∧ (∀ dataset,
       model_params <$>
         resolve_model "GGNN" "PPI" (Some sample_model_class) dataset ∅
           (<["num_layers" := JStr "five"]> ∅) (<["num_layers" := JInt 5]> ∅)
           (<["num_layers" := "7"]> ∅)
       = Ok (<["num_layers" := JInt 7]> ∅)).
Proof.
  split; [reflexivity|].
  split.
  { intros impl task cls ovr dataset tuned loaded cli hd Htask.
    unfold get_model. by rewrite Htask. }
  split; [apply override_model_params_with_hyperdrive_params_spec|].
  split; [vm_compute; reflexivity|].
  split; [vm_compute; reflexivity|].
  split; [vm_compute; reflexivity|].
  intros dataset. unfold get_model. cbn [mbind result_bind].
  vm_compute. reflexivity.
Qed.

End Resolver.

(** ** The run identifier *)

(** [run_train_from_args] derives the run identifier, the log file and the
    checkpoint path from model, task and time alone. *)
Lemma run_train_from_args_run_id {W R : Type}
    (run_one_epoch : W → DataFold → bool → W * (Q * Q * R))
    (compute_epoch_metrics : R → Q * string) json_loads
    task_name_to_dataset_class task_name_to_model_class initial_weights module_dir
    (args : Args) hyperdrive now (fs : FileSystem W) out :
  run_train_from_args run_one_epoch compute_epoch_metrics json_loads
    task_name_to_dataset_class task_name_to_model_class initial_weights module_dir
    args hyperdrive now fs = Ok out →
  let run_id := args_model args +:+ "_" +:+ args_task args +:+ "__" +:+ now in
  out_run_id out = run_id
  ∧ out_log_file out = os_path_join (args_save_dir args) (run_id +:+ ".log")
  ∧ out_trained_model_path out
    = os_path_join (args_save_dir args) (run_id +:+ "_best.pkl").
Proof.
  intros Hrun run_id. subst run_id. unfold run_train_from_args in Hrun.
  destruct (get_model_and_dataset _ _ _ _ _ _ _ _ _ _ _ _ _ _) as [[dataset model]|err];
    [|discriminate].
  cbn [mbind result_bind] in Hrun.
  destruct (if truthy (args_load_saved_model args) then _ else _) as [model'|err];
    [|discriminate].
  cbn [mbind result_bind] in Hrun. unfold train in Hrun. cbv zeta in Hrun.
  destruct (args_run_test args).
  - destruct (load_weights _ _ _) as [restored|err]; [|discriminate].
    cbn [mbind result_bind] in Hrun.
    destruct (run_one_epoch _ TEST false) as [w [[loss speed] results]].
    destruct (compute_epoch_metrics results) as [metric str].
    injection Hrun as <-. by repeat split.
  - injection Hrun as <-. by repeat split.
Qed.

(** C5 (the code departs from the claim). [make_run_id] returns a run name
    that is given, but [run_train_from_args] does not hand the run name to
    it: with [--run-name my_run] the run identifier, the log file and the
    checkpoint are still named after model, task and time. *)
Theorem run_name_is_not_used :
  args_run_name sample_args = Some "my_run"
  ∧ make_run_id "GGNN" "PPI" (args_run_name sample_args) "2020-03-01_12-00-00" = "my_run"
  ∧ match
      run_train_from_args (sample_run_one_epoch sample_metrics)
        sample_compute_epoch_metrics sample_json_loads
        sample_task_name_to_dataset_class sample_task_name_to_model_class 0%nat
        "tf2_gnn/utils" sample_args ∅ "2020-03-01_12-00-00" empty_fs
    with
    | Ok out =>
        out_run_id out = "GGNN_PPI__2020-03-01_12-00-00"
        ∧ out_log_file out = "trained_model/GGNN_PPI__2020-03-01_12-00-00.log"
        ∧ out_trained_model_path out
          = "trained_model/GGNN_PPI__2020-03-01_12-00-00_best.pkl"
    | Raise _ => False
    end.
Proof. vm_compute. repeat split; reflexivity. Qed.

(** ** Instances *)

Lemma get_dataset_layers_witness :
  sample_task_name_to_dataset_class "PPI"
  = Some (sample_dataset_class, <["tie_fwd_bkwd_edges" := JBool true]> ∅)
  ∧ ∃ dataset,
      get_dataset sample_task_name_to_dataset_class "PPI" None
        sample_tuned_task_params ∅ sample_cli_data_params = Ok dataset
      ∧ dataset_params dataset !! "max_nodes_per_batch" = Some (JInt 500)
      ∧ dataset_params dataset !! "add_self_loop_edges" = Some (JBool false)
      ∧ dataset_params dataset !! "tie_fwd_bkwd_edges" = Some (JBool true)
      ∧ dataset_params dataset !! "num_fwd_edge_types" = Some (JInt 3).
Proof.
  split; [reflexivity|].
  destruct (get_dataset_layers sample_task_name_to_dataset_class "PPI"
              sample_dataset_class (<["tie_fwd_bkwd_edges" := JBool true]> ∅)
              sample_tuned_task_params ∅ sample_cli_data_params eq_refl)
    as (dataset & Hget & _ & _ & Hlookup & _).
  exists dataset. split; [exact Hget|].
  rewrite !Hlookup. repeat split; reflexivity.
Defined.

Lemma saved_model_hyperparameters_are_the_base_witness :
  ∃ dataset model,
    get_model_and_dataset sample_json_loads sample_task_name_to_dataset_class
      sample_task_name_to_model_class 0%nat "tf2_gnn/utils" sample_checkpoint_fs
      "NOT_A_TASK" "GGNN" "data" (Some "trained_model/run_best.pkl")
      (Some sample_override_document) None sample_hyperdrive_overrides None
    = Ok (dataset, model)
    ∧ dataset_class dataset = sample_dataset_class
    ∧ dataset_params dataset
      = dict_update (dataset_params sample_dataset) sample_cli_data_params
    ∧ model_class model = sample_model_class
    ∧ model_params model = <["gnn_hidden_dim" := JInt 64]> (model_params sample_model).
Proof.
  destruct (saved_model_hyperparameters_are_the_base sample_json_loads
              sample_task_name_to_dataset_class sample_task_name_to_model_class
              0%nat "tf2_gnn/utils" sample_checkpoint_fs
              "NOT_A_TASK" "GGNN" "data" "trained_model/run_best.pkl"
              (Some sample_override_document) None sample_hyperdrive_overrides None
              (data_to_store sample_model sample_dataset)
              sample_model_class sample_dataset_class
              (dataset_params sample_dataset) (model_params sample_model)
              sample_cli_data_params ∅
              (<["gnn_hidden_dim" := JInt 64]> (model_params sample_model)))
    as (dataset & model & Hget & Hdc & Hdp & _ & Hmc & Hmp & _);
    [discriminate|vm_compute; reflexivity|vm_compute; reflexivity
    |vm_compute; reflexivity|vm_compute; reflexivity|vm_compute; reflexivity
    |vm_compute; reflexivity|vm_compute; reflexivity|vm_compute; reflexivity|].
  exists dataset, model. by repeat split.
Defined.

Lemma missing_tuned_defaults_are_not_an_error_witness :
  files empty_fs !! task_model_default_hypers_file "tf2_gnn/utils" "PPI" "GGNN" = None
  ∧ load_default_task_model_hypers sample_json_loads "tf2_gnn/utils" empty_fs
      "PPI" "GGNN" = Ok (JObject ∅).
Proof.
  split; [reflexivity|].
  apply (proj1 (missing_tuned_defaults_are_not_an_error sample_json_loads
                  sample_task_name_to_dataset_class sample_task_name_to_model_class
                  0%nat "tf2_gnn/utils" empty_fs "PPI" "GGNN")).
  reflexivity.
Defined.

Lemma search_overrides_coerce_after_cli_witness :
  sample_task_name_to_model_class "PPI"
  = Some (sample_model_class, <["gnn_hidden_dim" := JInt 320]> ∅)
  ∧ (model_params <$>
       get_model sample_task_name_to_model_class 0%nat "GGNN" "PPI" None sample_dataset
         ∅ ∅ ∅ sample_hyperdrive_overrides) ≫= (λ params, Ok (params !! "gnn_hidden_dim"))
    = Ok (Some (JInt 64)).
Proof.
  split; [reflexivity|].
  rewrite (proj1 (proj2 (search_overrides_coerce_after_cli
                           sample_task_name_to_model_class 0%nat))
             "GGNN" "PPI" sample_model_class (<["gnn_hidden_dim" := JInt 320]> ∅))
    by reflexivity.
  vm_compute. reflexivity.
Defined.

Lemma best_metric_is_running_minimum_witness :
  let run_with (budget : Z) :=
    snd (train (sample_run_one_epoch sample_metrics) sample_compute_epoch_metrics
           sample_model sample_dataset "run" budget 3 "trained_model" false empty_fs) in
  0 ≤ 2 ≤ 10000
  ∧ (best_valid_metric (run_with 10000%Z) <= best_valid_metric (run_with 2%Z))%Q.
Proof.
  split; [lia|].
  pose proof (best_metric_is_running_minimum
                (sample_run_one_epoch sample_metrics) sample_compute_epoch_metrics
                sample_model sample_dataset "run" 2 3 "trained_model" false empty_fs)
    as H.
  cbv zeta in H. destruct H as (_ & _ & _ & H).
  destruct (H 10000) as [_ Hle]; [lia|exact Hle].
Defined.

(** * Further properties of the module *)

(** ** Strings and paths *)

Lemma string_app_inj_l (prefix x y : string) :
  prefix +:+ x = prefix +:+ y → x = y.
Proof.
  induction prefix as [|c prefix IH]; cbn; [done|].
  intros [= H]. by apply IH.
Qed.

Lemma string_app_assoc (a b c : string) : (a +:+ b) +:+ c = a +:+ (b +:+ c).
Proof.
  unfold String.app. induction a as [|ch a IH]; cbn [String.append]; [done|].
  by rewrite IH.
Qed.

Lemma string_app_nil_r (a : string) : a +:+ "" = a.
Proof.
  unfold String.app. induction a as [|ch a IH]; cbn [String.append]; [done|].
  by rewrite IH.
Qed.

(** Joining one directory with two different relative names gives two
    different paths. *)
Lemma os_path_join_inj (a b1 b2 : string) :
  startswith_sep b1 = startswith_sep b2 →
  os_path_join a b1 = os_path_join a b2 → b1 = b2.
Proof.
  unfold os_path_join. intros Hs. rewrite Hs.
  destruct (startswith_sep b2); [done|].
  destruct (bool_decide (a = "") || endswith_sep a).
  - apply string_app_inj_l.
  - intros H. apply string_app_inj_l in H. by apply (string_app_inj_l "/").
Qed.

(** ** [make_run_id] *)


(** ** [log_line] *)

Lemma log_line_read_text {W} (log_file msg : string) (fs : FileSystem W) :
  (∀ data, files fs !! log_file ≠ Some (PickleFile data)) →
  read_text (fst (log_line log_file msg fs)) log_file
  = Some (default "" (read_text fs log_file) +:+ msg +:+ newline).
Proof.
  intros Htext. unfold read_text, log_line. cbn [fst files].
  rewrite lookup_insert_eq.
  destruct (files fs !! log_file) as [[text|data]|] eqn:Hf; [done| |done].
  by destruct (Htext data).
Qed.

Lemma log_line_other_files {W} (log_file msg : string) (fs : FileSystem W) :
  weight_files (fst (log_line log_file msg fs)) = weight_files fs
  ∧ ∀ path, path ≠ log_file →
      files (fst (log_line log_file msg fs)) !! path = files fs !! path.
Proof.
  unfold log_line. cbn [fst files weight_files]. split; [done|].
  intros path Hne. by rewrite lookup_insert_ne.
Qed.

(** X2. The log is append-only. Whatever is logged, in whatever number of
    calls, the text the log file held before stays at its start and the
    messages follow it in the order of the calls, each closed by a newline;
    a log file that is not there is created by the first call. No other
    file and no saved weights are touched, and what is printed is the
    message. *)
Theorem log_line_appends {W} (log_file msg : string) (msgs : list string)
    (fs : FileSystem W) :
  (∀ data, files fs !! log_file ≠ Some (PickleFile data)) →
  let log := λ (fs : FileSystem W) (msg : string), fst (log_line log_file msg fs) in
  let fs' := foldl log fs (msg :: msgs) in
  read_text fs' log_file
  = Some (default "" (read_text fs log_file)
          +:+ foldr (λ msg rest, msg +:+ newline +:+ rest) "" (msg :: msgs))
  ∧ weight_files fs' = weight_files fs
  ∧ (∀ path, path ≠ log_file → files fs' !! path = files fs !! path)
  ∧ snd (log_line log_file msg fs) = msg.
Proof.
  intros Htext log fs'. subst fs'.
  split; [|split; [|split; [|reflexivity]]].
  - revert msg fs Htext. induction msgs as [|next msgs IH]; intros msg fs Htext.
    + cbn [foldl foldr]. subst log. cbv beta.
      rewrite log_line_read_text by done.
      by rewrite string_app_nil_r.
    + change (foldl log fs (msg :: next :: msgs))
        with (foldl log (log fs msg) (next :: msgs)).
      rewrite IH.
      * subst log. cbv beta. rewrite log_line_read_text by done.
        cbn [default from_option id foldr]. f_equal.
        by rewrite !string_app_assoc.
      * intros data Hdata.
        assert (Hread : read_text (log fs msg) log_file ≠ None).
        { subst log. cbv beta. by rewrite log_line_read_text. }
        unfold read_text in Hread. by rewrite Hdata in Hread.
  - revert fs Htext. generalize (msg :: msgs).
    induction l as [|m l IH]; intros fs Htext; [done|].
    cbn [foldl]. rewrite IH.
    + apply log_line_other_files.
    + intros data Hdata.
      assert (Hread : read_text (log fs m) log_file ≠ None).
      { subst log. cbv beta. by rewrite log_line_read_text. }
      unfold read_text in Hread. by rewrite Hdata in Hread.
  - intros path Hne. revert fs Htext. generalize (msg :: msgs).
    induction l as [|m l IH]; intros fs Htext; [done|].
    cbn [foldl]. rewrite IH.
    + by apply log_line_other_files.
    + intros data Hdata.
      assert (Hread : read_text (log fs m) log_file ≠ None).
      { subst log. cbv beta. by rewrite log_line_read_text. }
      unfold read_text in Hread. by rewrite Hdata in Hread.
Qed.

(** ** More about [train] *)

Section TrainFiles.

Context {W R : Type}.
Variable run_one_epoch : W → DataFold → bool → W * (Q * Q * R).
Variable compute_epoch_metrics : R → Q * string.

Local Abbreviation body := (epoch_body run_one_epoch compute_epoch_metrics).
Local Abbreviation loop := (train_loop run_one_epoch compute_epoch_metrics).
Local Abbreviation init := (train_init run_one_epoch compute_epoch_metrics).
Local Abbreviation run := (train run_one_epoch compute_epoch_metrics).

Lemma same_files_but_save_model save_file (model : GraphTaskModel W) dataset fs fs' :
  same_files_but save_file fs fs' →
  same_files_but save_file fs (save_model save_file model dataset fs').
Proof.
  intros Hsame path Hne. unfold save_model. cbn [files weight_files].
  rewrite !lookup_insert_ne by done. by apply Hsame.
Qed.

Lemma same_files_but_body dataset save_file patience aml_run e fs (st : TrainState W) :
  same_files_but save_file fs (st_fs st) →
  same_files_but save_file fs (st_fs (body dataset save_file patience aml_run e st)).
Proof.
  intros Hsame.
  pose proof (epoch_body_spec run_one_epoch compute_epoch_metrics dataset save_file
                patience aml_run e st) as Hspec.
  cbv zeta in Hspec. destruct Hspec as (_ & _ & _ & _ & _ & _ & _ & Hbranch).
  destruct (Qlt_bool _ _).
  - destruct Hbranch as (_ & _ & _ & -> & _). by apply same_files_but_save_model.
  - by destruct Hbranch as (_ & _ & -> & _).
Qed.

Lemma same_files_but_loop dataset save_file patience aml_run fs epochs :
  ∀ st : TrainState W,
  same_files_but save_file fs (st_fs st) →
  same_files_but save_file fs
    (st_fs (loop dataset save_file patience aml_run epochs st)).
Proof.
  induction epochs as [|e epochs IH]; intros st Hsame; cbn [train_loop]; [done|].
  cbv zeta. destruct (stopped _); [|apply IH]; by apply same_files_but_body.
Qed.

Lemma train_init_fs (model : GraphTaskModel W) dataset save_file (fs : FileSystem W) :
  ∃ w, st_fs (init model dataset save_file fs)
       = save_model save_file (set_weights model w) dataset fs.
Proof.
  unfold train_init.
  destruct (run_one_epoch (model_weights model) VALIDATION false)
    as [w [[loss speed] results]].
  destruct (compute_epoch_metrics results) as [metric str].
  by exists w.
Qed.


End TrainFiles.

Lemma improves_decidable (m : nat → Q) (e : nat) : improves m e ∨ ¬ improves m e.
Proof.
  unfold improves.
  assert (H : ∀ n, (∀ i, (i < n)%nat → (m e < m i)%Q)
                   ∨ ¬ (∀ i, (i < n)%nat → (m e < m i)%Q)).
  { induction n as [|n [IH|IH]].
    - left. lia.
    - destruct (Qlt_le_dec (m e) (m n)) as [Hlt|Hle].
      + left. intros i Hi. destruct (decide (i = n)) as [->|Hne]; [done|].
        apply IH. lia.
      + right. intros Hall. apply (Qlt_not_le (m e) (m n)); [|done].
        apply Hall. lia.
    - right. intros Hall. apply IH. intros i Hi. apply Hall. lia. }
  apply H.
Qed.

Lemma best_epoch_before_exists (m : nat → Q) (e : nat) :
  (1 ≤ e)%nat → ∃ b, best_epoch_before m e b.
Proof.
  induction e as [|e IH]; [lia|]. intros _.
  destruct (decide (e = 0%nat)) as [->|Hpos].
  - exists 0%nat. split; [lia|]. split; [intros i Hi; lia|]. lia.
  - destruct (improves_decidable m e) as [Himp|Hnot].
    + exists e. split; [lia|]. split; [done|]. lia.
    + destruct IH as (b & Hb & Himp & Hlast); [lia|].
      exists b. split; [lia|]. split; [done|].
      intros j Hj. destruct (decide (j = e)) as [->|Hne]; [done|].
      apply Hlast. lia.
Qed.

(** With a patience of at most one, patience is exhausted at an epoch as
    soon as its metric does not improve. *)
Lemma patience_exhausted_at_most_one (m : nat → Q) (patience : Z) (e : nat) :
  patience ≤ 1 → (1 ≤ e)%nat →
  patience_exhausted m patience e ↔ ¬ improves m e.
Proof.
  intros Hp He. unfold patience_exhausted. split; [by intros [? _]|].
  intros Hnot. split; [done|].
  destruct (best_epoch_before_exists m e He) as (b & Hb).
  exists b. split; [done|]. destruct Hb as [Hlt _]. lia.
Qed.

Section TrainBudget.

Context {W R : Type}.
Variable run_one_epoch : W → DataFold → bool → W * (Q * Q * R).
Variable compute_epoch_metrics : R → Q * string.

Local Abbreviation run := (train run_one_epoch compute_epoch_metrics).
Local Abbreviation weights_at := (weights_after run_one_epoch).
Local Abbreviation metric_at := (valid_metric_at run_one_epoch compute_epoch_metrics).

(** X4. [train] runs the epochs 1, 2, ... in order and never more than
    [max_epochs] of them (none when [max_epochs] is zero or negative); it
    runs fewer only when it stopped early. When it returns, the model object
    carries the weights of the last epoch that ran, while the checkpoint
    carries those of the best epoch, which is that epoch or an earlier
    one. *)
Theorem train_epoch_budget (model : GraphTaskModel W) dataset run_id max_epochs
    patience save_dir aml_run (fs : FileSystem W) :
  let w0 := model_weights model in
  let result := run model dataset run_id max_epochs patience save_dir aml_run fs in
  let st := snd result in
  ∃ e b : nat,
    (b ≤ e)%nat
    ∧ Z.of_nat e ≤ Z.max 0 max_epochs
    ∧ epochs_run (trace st) = seqZ 1 (Z.of_nat e)
    ∧ (stopped st = false → Z.of_nat e = Z.max 0 max_epochs)
    ∧ model_weights (st_model st) = weights_at w0 e
    ∧ best_valid_epoch st = Z.of_nat b
    ∧ weight_files (st_fs st) !! fst result = Some (weights_at w0 b).
Proof.
  intros w0 result st.
  pose proof (train_outcome run_one_epoch compute_epoch_metrics model dataset run_id
                max_epochs patience save_dir aml_run fs) as Hout.
  cbv zeta in Hout. fold w0 result st in Hout.
  destruct Hout as [(e & b & He & Hinv & Hst & _)|(b & Hinv & Hst & _)].
  - destruct Hinv as [Hw Hbe _ Hle _ _ _ Her Hck].
    exists e, b. split; [done|]. split; [lia|].
    split; [by rewrite seqZ_of_nat_seq, Nat2Z.id|].
    split; [congruence|]. by repeat split.
  - destruct Hinv as [Hw Hbe _ Hle _ _ _ Her Hck].
    exists (Z.to_nat max_epochs), b. split; [done|]. split; [lia|].
    split; [by rewrite seqZ_of_nat_seq, Nat2Z.id|].
    split; [lia|]. by repeat split.
Qed.

(** X5. With [patience] at most 1 the loop stops at the first epoch whose
    validation metric is not strictly below every metric before it: [train]
    leaves the loop by its [break] after epoch [e] exactly when [e] is within
    the budget, the metric of [e] does not improve, and the metric of every
    epoch before [e] did. *)
Theorem train_stops_at_first_stale_epoch (model : GraphTaskModel W) dataset run_id
    max_epochs patience save_dir aml_run (fs : FileSystem W) (e : nat) :
  patience ≤ 1 →
  let m := metric_at (model_weights model) in
  let st := snd (run model dataset run_id max_epochs patience save_dir aml_run fs) in
  stopped st = true ∧ epochs_run (trace st) = seqZ 1 (Z.of_nat e)
  ↔ (1 ≤ e)%nat ∧ Z.of_nat e ≤ max_epochs
    ∧ ¬ improves m e
    ∧ ∀ e', (1 ≤ e' < e)%nat → improves m e'.
Proof.
  intros Hp m st. subst st.
  rewrite (train_stops_iff run_one_epoch compute_epoch_metrics).
  fold m. unfold first_patience_exhausted. split.
  - intros (He & H1 & Hpe & Hfirst). split; [done|]. split; [done|].
    split; [exact (proj1 (patience_exhausted_at_most_one m patience e Hp H1) Hpe)|].
    intros e' He'. destruct (improves_decidable m e') as [Himp|Hnot]; [done|].
    destruct (Hfirst e' He').
    apply patience_exhausted_at_most_one; [done|lia|done].
  - intros (H1 & He & Hnot & Hbefore). split; [done|]. split; [done|].
    split; [exact (proj2 (patience_exhausted_at_most_one m patience e Hp H1) Hnot)|].
    intros e' He' Hpe.
    apply (patience_exhausted_at_most_one m patience e') in Hpe; [|done|lia].
    apply Hpe. by apply Hbefore.
Qed.

End TrainBudget.

Section TrainAml.

Context {W R : Type}.
Variable run_one_epoch : W → DataFold → bool → W * (Q * Q * R).
Variable compute_epoch_metrics : R → Q * string.

Local Abbreviation body := (epoch_body run_one_epoch compute_epoch_metrics).
Local Abbreviation loop := (train_loop run_one_epoch compute_epoch_metrics).
Local Abbreviation init := (train_init run_one_epoch compute_epoch_metrics).
Local Abbreviation run := (train run_one_epoch compute_epoch_metrics).
Local Abbreviation next_metric := (epoch_valid_metric run_one_epoch compute_epoch_metrics).

Ltac run_state_simpl :=
  cbn [st_model st_fs trace best_valid_metric best_valid_epoch epoch stopped
       emit set_model_weights set_fs set_best set_epoch break log_fun aml_run_log
       train_save_model set_weights model_weights model_class model_params
       model_num_edge_types fst snd].

Lemma epoch_body_aml dataset save_file patience aml_run e (st : TrainState W) :
  let st' := body dataset save_file patience aml_run e st in
  (aml_logs (trace st')).*1
  = (aml_logs (trace st)).*1 ++ (if aml_run then aml_names_per_epoch else [])
  ∧ aml_valid_metrics (trace st')
    = aml_valid_metrics (trace st) ++ (if aml_run then [next_metric st] else []).
Proof.
  intros st'. subst st'.
  unfold epoch_valid_metric, valid_pass_metric, after_train_pass, epoch_body.
  rewrite run_one_epoch_and_metrics_eq. cbv beta iota zeta.
  rewrite run_one_epoch_and_metrics_eq. cbv beta iota zeta.
  run_state_simpl.
  destruct aml_run; run_state_simpl.
  all: destruct (Qlt_bool _ (best_valid_metric st));
    [|destruct (e - best_valid_epoch st >=? patience)]; run_state_simpl.
  all: unfold aml_valid_metrics, aml_logs;
    rewrite <- ?app_assoc, ?omap_app; cbn [omap list_omap app];
    rewrite ?app_nil_r, ?fmap_app, ?omap_app; split; reflexivity.
Qed.

(** X7. What [train] reports to AzureML. Without an AzureML run nothing is
    reported. With one, every epoch that ran reports its four values in the
    same order, and the values reported as [task_valid_metric] are the
    validation metrics of the epochs: the baseline validation pass is not
    reported. *)
Theorem train_aml_logging (model : GraphTaskModel W) dataset run_id max_epochs
    patience save_dir aml_run (fs : FileSystem W) :
  let st := snd (run model dataset run_id max_epochs patience save_dir aml_run fs) in
  (aml_logs (trace st)).*1
  = (if aml_run then epochs_run (trace st) ≫= λ _, aml_names_per_epoch else [])
  ∧ aml_valid_metrics (trace st)
    = (if aml_run then tail (valid_metrics (trace st)) else []).
Proof.
  intros st. subst st. unfold train. cbn [snd].
  set (save_file := os_path_join save_dir (run_id +:+ "_best.pkl")).
  assert (Hloop : ∀ epochs (st : TrainState W),
    (∃ baseline rest, valid_metrics (trace st) = baseline :: rest
       ∧ aml_valid_metrics (trace st) = (if aml_run then rest else [])) →
    (aml_logs (trace st)).*1
      = (if aml_run then epochs_run (trace st) ≫= λ _, aml_names_per_epoch else []) →
    let st' := loop dataset save_file patience aml_run epochs st in
    (aml_logs (trace st')).*1
      = (if aml_run then epochs_run (trace st') ≫= λ _, aml_names_per_epoch else [])
    ∧ aml_valid_metrics (trace st')
      = (if aml_run then tail (valid_metrics (trace st')) else [])).
  { induction epochs as [|e epochs IH]; intros st (baseline & rest & Hvm & Hav) Hnames.
    - cbn [train_loop]. cbv zeta. rewrite Hvm. by split.
    - cbn [train_loop]. cbv zeta.
      pose proof (epoch_body_spec run_one_epoch compute_epoch_metrics dataset
                    save_file patience aml_run e st) as Hspec.
      pose proof (epoch_body_aml dataset save_file patience aml_run e st) as Haml.
      cbv zeta in Hspec, Haml.
      set (st1 := body dataset save_file patience aml_run e st) in *.
      destruct Hspec as (_ & _ & _ & _ & Hvm1 & Her1 & _).
      destruct Haml as (Hn1 & Hv1).
      assert (Hvalid : ∃ baseline1 rest1,
                valid_metrics (trace st1) = baseline1 :: rest1
                ∧ aml_valid_metrics (trace st1) = (if aml_run then rest1 else [])).
      { exists baseline, (rest ++ [next_metric st]).
        rewrite Hvm1, Hvm, Hv1, Hav. split; [done|].
        destruct aml_run; [done|]. by rewrite app_nil_r. }
      assert (Hnames1 : (aml_logs (trace st1)).*1
                = (if aml_run then epochs_run (trace st1) ≫= λ _, aml_names_per_epoch
                   else [])).
      { rewrite Hn1, Her1, Hnames. destruct aml_run; [|done].
        rewrite bind_app. cbn. by rewrite ?app_nil_r. }
      destruct (stopped st1); [|by apply IH].
      split; [done|]. destruct Hvalid as (b1 & r1 & -> & ->). done. }
  apply Hloop.
  - unfold train_init.
    destruct (run_one_epoch (model_weights model) VALIDATION false)
      as [w [[loss speed] results]].
    destruct (compute_epoch_metrics results) as [metric str].
    run_state_simpl. exists metric, []. split; [reflexivity|]. by destruct aml_run.
  - unfold train_init.
    destruct (run_one_epoch (model_weights model) VALIDATION false)
      as [w [[loss speed] results]].
    destruct (compute_epoch_metrics results) as [metric str].
    run_state_simpl. by destruct aml_run.
Qed.

End TrainAml.

(** ** More about [run_train_from_args] *)

Section RunFromArgs.

Context {W R : Type}.
Variable run_one_epoch : W → DataFold → bool → W * (Q * Q * R).
Variable compute_epoch_metrics : R → Q * string.
Variable json_loads : string → option JValue.
Variable task_name_to_dataset_class : string → option (DatasetClass * gmap string JValue).
Variable task_name_to_model_class : string → option (ModelClass * gmap string JValue).
Variable initial_weights : W.
Variable module_dir : string.

Local Abbreviation run_from_args :=
  (run_train_from_args run_one_epoch compute_epoch_metrics json_loads
     task_name_to_dataset_class task_name_to_model_class initial_weights module_dir).
Local Abbreviation resolve :=
  (get_model_and_dataset json_loads task_name_to_dataset_class task_name_to_model_class
     initial_weights module_dir).
Local Abbreviation run := (train run_one_epoch compute_epoch_metrics).
Local Abbreviation weights_at := (weights_after run_one_epoch).


(** X9. The log file of a run and the checkpoint it returns are different
    paths, so saving a checkpoint never overwrites the log. *)
Theorem log_file_is_not_the_checkpoint (args : Args) (hyperdrive : gmap string string)
    (now : string) (fs : FileSystem W) (out : RunOutcome) :
  run_from_args args hyperdrive now fs = Ok out →
  out_log_file out ≠ out_trained_model_path out.
Proof.
  intros Hrun.
  destruct (run_train_from_args_run_id _ _ _ _ _ _ _ _ _ _ _ _ Hrun)
    as (_ & -> & ->).
  intros Heq. apply os_path_join_inj in Heq.
  - by apply string_app_inj_l in Heq.
  - by rewrite !startswith_sep_app.
Qed.

End RunFromArgs.

(** ** More about the configuration resolver *)

Lemma dict_update_agree {A} (d other : gmap string A) :
  (∀ k v, other !! k = Some v → d !! k = Some v) → dict_update d other = d.
Proof.
  intros Hagree. apply map_eq. intros k. rewrite dict_update_lookup.
  destruct (other !! k) as [v|] eqn:Hk; [|done]. symmetry. by apply Hagree.
Qed.

Lemma raises_bind {A B} (r : result A) (f : A → result B) :
  raises r → raises (r ≫= f).
Proof. intros [e ->]. by exists e. Qed.

Section ResolverMore.

Context {W : Type}.
Variable json_loads : string → option JValue.
Variable task_name_to_dataset_class : string → option (DatasetClass * gmap string JValue).
Variable task_name_to_model_class : string → option (ModelClass * gmap string JValue).
Variable initial_weights : W.
Variable module_dir : string.

Local Abbreviation resolve_model := (get_model task_name_to_model_class initial_weights).
Local Abbreviation resolve :=
  (get_model_and_dataset json_loads task_name_to_dataset_class task_name_to_model_class
     initial_weights module_dir).
Local Abbreviation cli_overrides := (loads_cli_overrides json_loads).

(** X10. With no class override and no search overrides, [get_model] resolves
    the parameters of the class registered for the task in layers: class
    defaults, then the message passing style under the key
    [gnn_message_calculation_class], then the task-specific overrides, the
    tuned defaults and the CLI overrides. The style is written before the
    override layers, so that key is always present and holds the style asked
    for unless one of the three layers sets it. *)
Theorem get_model_layers (msg_passing_implementation task_name : string)
    (model_cls : ModelClass) (dataset : GraphDataset)
    (task_overrides tuned loaded cli : gmap string JValue) :
  task_name_to_model_class task_name = Some (model_cls, task_overrides) →
  ∃ model : GraphTaskModel W,
    resolve_model msg_passing_implementation task_name None dataset tuned loaded cli ∅
    = Ok model
    ∧ model_class model = model_cls
    ∧ model_num_edge_types model = num_edge_types dataset
    ∧ (∀ k, model_params model !! k =
            match cli !! k with
            | Some v => Some v
            | None =>
                match tuned !! k with
                | Some v => Some v
                | None =>
                    match task_overrides !! k with
                    | Some v => Some v
                    | None =>
                        if decide (k = "gnn_message_calculation_class")
                        then Some (JStr msg_passing_implementation)
                        else model_default_hyperparameters model_cls
                               msg_passing_implementation !! k
                    end
                end
            end)
    ∧ is_Some (model_params model !! "gnn_message_calculation_class")
    ∧ (cli !! "gnn_message_calculation_class" = None →
       tuned !! "gnn_message_calculation_class" = None →
       task_overrides !! "gnn_message_calculation_class" = None →
       model_params model !! "gnn_message_calculation_class"
       = Some (JStr msg_passing_implementation)).
Proof.
  intros Htask. unfold get_model. rewrite Htask. cbn [mbind result_bind].
  rewrite override_model_params_with_hyperdrive_params_empty. cbn [mbind result_bind].
  eexists. split; [reflexivity|].
  cbn [model_class model_params model_num_edge_types].
  split; [reflexivity|]. split; [reflexivity|].
  match goal with
  | |- (∀ k, ?params !! k = _) ∧ _ =>
      assert (Hlookup : ∀ k, params !! k =
        match cli !! k with
        | Some v => Some v
        | None =>
            match tuned !! k with
            | Some v => Some v
            | None =>
                match task_overrides !! k with
                | Some v => Some v
                | None =>
                    if decide (k = "gnn_message_calculation_class")
                    then Some (JStr msg_passing_implementation)
                    else model_default_hyperparameters model_cls
                           msg_passing_implementation !! k
                end
            end
        end)
  end.
  { intros k. rewrite !dict_update_lookup, lookup_insert.
    destruct (cli !! k), (tuned !! k), (task_overrides !! k); try done.
    repeat case_decide; congruence. }
  split; [exact Hlookup|]. split.
  - rewrite Hlookup.
    destruct (cli !! _); [done|]. destruct (tuned !! _); [done|].
    destruct (task_overrides !! _); [done|]. by rewrite decide_True.
  - intros Hc Ht Ho. by rewrite Hlookup, Hc, Ht, Ho, decide_True.
Qed.

(** X11. A checkpoint round trip. After [save_model], [get_model_and_dataset]
    with that file as saved model, with CLI overrides that only repeat what
    the saved mappings hold (or with none) and without search overrides,
    gives back the classes and both parameter mappings as they were saved,
    whatever the task name, the registries and the tuned defaults are; and
    [load_weights] from the same path gives back the saved weights. *)
Theorem checkpoint_round_trip (save_file : string) (model : GraphTaskModel W)
    (dataset : GraphDataset) (fs : FileSystem W)
    (task_name msg_passing_implementation data_path : string)
    (cli_data cli_model : option string) (folds_to_load : option (list DataFold))
    (cli_data_params cli_model_params : gmap string JValue) :
  save_file ≠ "" →
  cli_overrides cli_data = Ok (JObject cli_data_params) →
  cli_overrides cli_model = Ok (JObject cli_model_params) →
  (∀ k v, cli_data_params !! k = Some v → dataset_params dataset !! k = Some v) →
  (∀ k v, cli_model_params !! k = Some v → model_params model !! k = Some v) →
  let fs' := save_model save_file model dataset fs in
  ∃ dataset' model',
    resolve fs' task_name msg_passing_implementation data_path (Some save_file)
      cli_data cli_model ∅ folds_to_load = Ok (dataset', model')
    ∧ dataset_class dataset' = dataset_class dataset
    ∧ dataset_params dataset' = dataset_params dataset
    ∧ model_class model' = model_class model
    ∧ model_params model' = model_params model
    ∧ model_weights <$> load_weights fs' save_file model' = Ok (model_weights model).
Proof.
  intros Hfile Hcd Hcm Hdata Hmodel fs'.
  unfold get_model_and_dataset.
  rewrite truthy_some by done.
  change (default "" (Some save_file)) with save_file.
  subst fs'. unfold save_model at 1. cbn [files]. rewrite lookup_insert_eq.
  unfold pickled_model_class, pickled_dataset_class, pickled_params.
  assert (Hmc : data_to_store model dataset !! "model_class"
                = Some (PModelClass (model_class model))) by done.
  assert (Hdc : data_to_store model dataset !! "dataset_class"
                = Some (PDatasetClass (dataset_class dataset))) by done.
  assert (Hdp : data_to_store model dataset !! "dataset_params"
                = Some (PParams (dataset_params dataset))) by done.
  assert (Hmp : data_to_store model dataset !! "model_params"
                = Some (PParams (model_params model))) by done.
  rewrite Hmc, Hdc. cbn [mbind result_bind]. rewrite Hdp, Hmp, Hcd, Hcm. cbn.
  rewrite override_model_params_with_hyperdrive_params_empty. cbn.
  rewrite !dict_update_agree by done.
  eexists _, _. split; [reflexivity|].
  cbn [load_data dataset_class dataset_params model_class model_params].
  do 4 (split; [reflexivity|]).
  unfold load_weights, save_model. cbn [weight_files].
  by rewrite lookup_insert_eq.
Qed.

(** X12. A CLI override that is given and is not a JSON document is fatal:
    whether it is the data or the model override, and whatever else is
    asked for, [get_model_and_dataset] raises. *)
Theorem malformed_cli_override_is_fatal (fs : FileSystem W)
    (task_name msg_passing_implementation data_path : string)
    (trained_model_file cli_data cli_model : option string)
    (hyperdrive : gmap string string) (folds_to_load : option (list DataFold))
    (document : string) :
  document ≠ "" → json_loads document = None →
  cli_data = Some document ∨ cli_model = Some document →
  raises (resolve fs task_name msg_passing_implementation data_path trained_model_file
            cli_data cli_model hyperdrive folds_to_load).
Proof.
  intros Hne Hbad Hwhich.
  assert (Hraise : raises (cli_overrides (Some document) ≫= as_dict)).
  { apply raises_bind. unfold loads_cli_overrides. rewrite truthy_some by done.
    unfold json_loads_or_raise. cbn. rewrite Hbad. by eexists. }
  unfold get_model_and_dataset.
  match goal with
  | |- raises (?first ≫= _) => destruct first as [[[[d mc] dc] tuned]|err]
  end; [|by eexists].
  cbn [mbind result_bind].
  destruct (json_get "task_params" tuned ≫= as_dict) as [task_params|err];
    [|by eexists].
  cbn [mbind result_bind].
  destruct (pickled_params "dataset_params" d) as [loaded_data|err]; [|by eexists].
  cbn [mbind result_bind].
  destruct Hwhich as [->| ->].
  - by apply raises_bind.
  - destruct (cli_overrides cli_data ≫= as_dict) as [cd|err]; [|by eexists].
    cbn [mbind result_bind].
    destruct (get_dataset _ _ _ _ _ _) as [dataset|err]; [|by eexists].
    cbn [mbind result_bind].
    destruct (json_get "model_params" tuned ≫= as_dict) as [tuned_model|err];
      [|by eexists].
    cbn [mbind result_bind].
    destruct (pickled_params "model_params" d) as [loaded_model|err]; [|by eexists].
    cbn [mbind result_bind].
    by apply raises_bind.
Qed.

End ResolverMore.

(** ** An improving epoch *)

(** X6. In an epoch whose validation metric is strictly below the current best,
    the metric becomes the best metric and the epoch the best epoch, the
    checkpoint is written once, with the weights the model has after that
    epoch, and the loop goes on: an improving epoch never stops the run,
    however long ago the previous best epoch was. *)
Theorem improvement_is_checkpointed {W R : Type}
    (run_one_epoch : W → DataFold → bool → W * (Q * Q * R))
    (compute_epoch_metrics : R → Q * string)
    dataset save_file patience aml_run e (st : TrainState W) :
  (epoch_valid_metric run_one_epoch compute_epoch_metrics st < best_valid_metric st)%Q →
  let st' := epoch_body run_one_epoch compute_epoch_metrics dataset save_file patience
               aml_run e st in
  best_valid_metric st' = epoch_valid_metric run_one_epoch compute_epoch_metrics st
  ∧ best_valid_epoch st' = e
  ∧ stopped st' = stopped st
  ∧ checkpoint_writes (trace st') = checkpoint_writes (trace st) ++ [save_file]
  ∧ weight_files (st_fs st') !! save_file = Some (model_weights (st_model st'))
  ∧ files (st_fs st') !! save_file
    = Some (PickleFile (data_to_store (st_model st) dataset)).
Proof.
  intros Hlt st'.
  pose proof (epoch_body_spec run_one_epoch compute_epoch_metrics dataset save_file
                patience aml_run e st) as Hspec.
  cbv zeta in Hspec. fold st' in Hspec.
  destruct Hspec as (_ & Hc & Hp & _ & _ & _ & _ & Hbranch).
  apply Qlt_bool_true in Hlt. rewrite Hlt in Hbranch.
  destruct Hbranch as (Hbm & Hbe & Hst & Hfs & Hcw).
  split; [done|]. split; [done|]. split; [done|]. split; [done|].
  rewrite Hfs. cbn [save_model files weight_files]. rewrite !lookup_insert_eq.
  split; [done|]. do 2 f_equal. unfold data_to_store. by rewrite Hc, Hp.
Qed.

(** ** Instances of the further properties *)

Lemma log_line_appends_witness :
  let log := λ (fs : FileSystem nat) (msg : string),
    fst (log_line "trained_model/run.log" msg fs) in
  (∀ data, files empty_fs !! "trained_model/run.log" ≠ Some (PickleFile data))
  ∧ read_text (foldl log empty_fs ["== Epoch 1"; "== Epoch 2"]) "trained_model/run.log"
    = Some ("== Epoch 1" +:+ newline +:+ "== Epoch 2" +:+ newline).
Proof.
  split; [intros data; discriminate|].
  destruct (log_line_appends (W:=nat) "trained_model/run.log" "== Epoch 1"
              ["== Epoch 2"] empty_fs) as (Hread & _); [intros data; discriminate|].
  exact Hread.
Defined.

Lemma improvement_is_checkpointed_witness :
  let run_one := sample_run_one_epoch sample_metrics in
  let st := train_init run_one sample_compute_epoch_metrics sample_model sample_dataset
              "trained_model/run_best.pkl" empty_fs in
  let st' := epoch_body run_one sample_compute_epoch_metrics sample_dataset
               "trained_model/run_best.pkl" 3 false 1 st in
  (epoch_valid_metric run_one sample_compute_epoch_metrics st < best_valid_metric st)%Q
  ∧ best_valid_epoch st' = 1
  ∧ weight_files (st_fs st') !! "trained_model/run_best.pkl" = Some 1%nat.
Proof.
  split; [vm_compute; reflexivity|].
  destruct (improvement_is_checkpointed (sample_run_one_epoch sample_metrics)
              sample_compute_epoch_metrics sample_dataset "trained_model/run_best.pkl"
              3 false 1
              (train_init (sample_run_one_epoch sample_metrics)
                 sample_compute_epoch_metrics sample_model sample_dataset
                 "trained_model/run_best.pkl" empty_fs))
    as (_ & Hbe & _ & _ & Hw & _); [vm_compute; reflexivity|].
  split; [exact Hbe|]. rewrite Hw. vm_compute. reflexivity.
Defined.

Lemma train_stops_at_first_stale_epoch_witness :
  let m := valid_metric_at (sample_run_one_epoch sample_metrics)
             sample_compute_epoch_metrics (model_weights sample_model) in
  (1 : Z) ≤ 1
  ∧ (1 ≤ 2)%nat ∧ Z.of_nat 2 ≤ 10000
  ∧ ¬ improves m 2
  ∧ ∀ e', (1 ≤ e' < 2)%nat → improves m e'.
Proof.
  split; [lia|].
  apply (train_stops_at_first_stale_epoch (sample_run_one_epoch sample_metrics)
           sample_compute_epoch_metrics sample_model sample_dataset "run" 10000 1
           "trained_model" false empty_fs 2); [lia|].
  vm_compute. split; reflexivity.
Defined.

Lemma get_model_layers_witness :
  sample_task_name_to_model_class "PPI"
  = Some (sample_model_class, <["gnn_hidden_dim" := JInt 320]> ∅)
  ∧ ∃ model : GraphTaskModel nat,
      get_model sample_task_name_to_model_class 0%nat "GGNN" "PPI" None sample_dataset
        ∅ ∅ (<["learning_rate" := JFloat (1 # 100)]> ∅) ∅ = Ok model
      ∧ model_params model !! "gnn_message_calculation_class" = Some (JStr "GGNN")
      ∧ model_params model !! "gnn_hidden_dim" = Some (JInt 320)
      ∧ model_params model !! "learning_rate" = Some (JFloat (1 # 100)).
Proof.
  split; [reflexivity|].
  destruct (get_model_layers sample_task_name_to_model_class 0%nat "GGNN" "PPI"
              sample_model_class sample_dataset (<["gnn_hidden_dim" := JInt 320]> ∅)
              ∅ ∅ (<["learning_rate" := JFloat (1 # 100)]> ∅) eq_refl)
    as (model & Hget & _ & _ & Hlookup & _).
  exists model. split; [exact Hget|].
  rewrite !Hlookup. repeat split; reflexivity.
Defined.

Lemma checkpoint_round_trip_witness :
  ∃ dataset' model',
    get_model_and_dataset sample_json_loads sample_task_name_to_dataset_class
      sample_task_name_to_model_class 0%nat "tf2_gnn/utils" sample_checkpoint_fs
      "NOT_A_TASK" "GGNN" "data" (Some "trained_model/run_best.pkl") None None ∅ None
    = Ok (dataset', model')
    ∧ dataset_params dataset' = dataset_params sample_dataset
    ∧ model_params model' = model_params sample_model.
Proof.
  destruct (checkpoint_round_trip sample_json_loads sample_task_name_to_dataset_class
              sample_task_name_to_model_class 0%nat "tf2_gnn/utils"
              "trained_model/run_best.pkl" sample_model sample_dataset empty_fs
              "NOT_A_TASK" "GGNN" "data" None None None ∅ ∅)
    as (dataset' & model' & Hget & _ & Hdp & _ & Hmp & _);
    [discriminate|reflexivity|reflexivity|intros k v; by rewrite lookup_empty
    |intros k v; by rewrite lookup_empty|].
  exists dataset', model'. by repeat split.
Defined.

Lemma malformed_cli_override_is_fatal_witness :
  "{" ≠ "" ∧ sample_json_loads "{" = None
  ∧ raises (get_model_and_dataset sample_json_loads sample_task_name_to_dataset_class
              sample_task_name_to_model_class 0%nat "tf2_gnn/utils" empty_fs
              "PPI" "GGNN" "data" None None (Some "{") ∅ None).
Proof.
  split; [discriminate|]. split; [reflexivity|].
  apply (malformed_cli_override_is_fatal sample_json_loads
           sample_task_name_to_dataset_class sample_task_name_to_model_class 0%nat
           "tf2_gnn/utils" empty_fs "PPI" "GGNN" "data" None None (Some "{") ∅ None "{");
    [discriminate|reflexivity|by right].
Defined.


Lemma log_file_is_not_the_checkpoint_witness :
  ∃ out,
    run_train_from_args (sample_run_one_epoch sample_metrics)
      sample_compute_epoch_metrics sample_json_loads
      sample_task_name_to_dataset_class sample_task_name_to_model_class 0%nat
      "tf2_gnn/utils" sample_args ∅ "2020-03-01_12-00-00" empty_fs = Ok out
    ∧ out_log_file out ≠ out_trained_model_path out.
Proof.
  destruct (run_train_from_args (sample_run_one_epoch sample_metrics)
              sample_compute_epoch_metrics sample_json_loads
              sample_task_name_to_dataset_class sample_task_name_to_model_class 0%nat
              "tf2_gnn/utils" sample_args ∅ "2020-03-01_12-00-00" empty_fs)
    as [out|err] eqn:Hrun.
  - exists out. split; [reflexivity|].
    exact (log_file_is_not_the_checkpoint _ _ _ _ _ _ _ _ _ _ _ _ Hrun).
  - vm_compute in Hrun. discriminate.
Defined.
